(** * EcoLearners Platform API: scoring and grading subsystem

    A shallow embedding of [backend/main.py].  Every SQLAlchemy table is a
    list of rows in rowid order, the media directory is a finite map from
    file names to contents, and every request handler is a function from the
    store to either a new store and a response, or the exception it raises.

    Modelling conventions:
    - [Integer] columns and Python [int]s are [Z]; [String]/[Text] columns
      are [string]; a nullable column that the code leaves unset is an
      [option].
    - A [date] is a day number and a [datetime] a number of microseconds,
      both [Z]; the two clocks the code reads ([datetime.utcnow] and
      [date.today]) are inputs of every call.
    - [db.query(T).get(k)] is the first row whose [id] is [k]; an UPDATE or
      DELETE issued by the ORM touches every row whose [id] matches, as the
      SQL statement does.
    - A new row gets the id SQLite gives an [INTEGER PRIMARY KEY]: one more
      than the largest id of its table, 1 for an empty table.
    - The bearer token is represented by the [sub] claim it decodes to
      ([None] when decoding fails). *)

From Stdlib Require Import ZArith QArith String Ascii List.
From stdpp Require Import base option list sorting gmap strings pretty.

Local Open Scope string_scope.
Local Open Scope list_scope.
Local Open Scope Z_scope.

(** ** Exceptions and results *)

Inductive exn : Type :=
| HTTPException (status_code : Z) (detail : string)
| AttributeError (* attribute access on [None]; FastAPI answers 500 *)
| ZeroDivisionError.

Inductive result (A : Type) : Type :=
| Ok (a : A)
| Raise (e : exn).
Arguments Ok {A} a.
Arguments Raise {A} e.

Global Instance result_ret : MRet result := fun A a => Ok a.
Global Instance result_bind : MBind result := fun A B f m =>
  match m with
  | Ok a => f a
  | Raise e => Raise e
  end.
Global Instance result_fmap : FMap result := fun A B f m =>
  match m with
  | Ok a => Ok (f a)
  | Raise e => Raise e
  end.

Definition is_ok {A} (r : result A) : bool :=
  match r with Ok _ => true | Raise _ => false end.

(** ** Database models *)

Definition date : Type := Z.
Definition datetime : Type := Z.

Module User.
Record t : Type := mk {
  id : Z;
  email : string;
  name : string;
  hashed_password : string;
  role : string;
  points : Z
}.
Definition set_points (p : Z) (u : t) : t :=
  mk (id u) (email u) (name u) (hashed_password u) (role u) p.
Definition set_name (n : string) (u : t) : t :=
  mk (id u) (email u) n (hashed_password u) (role u) (points u).
End User.

Module UserProfile.
Record t : Type := mk {
  id : Z;
  user_id : Z;
  register_number : option string;
  date_of_birth : option date;
  gender : option string;
  address : option string;
  residence : option string
}.
End UserProfile.

Module Lesson.
Record t : Type := mk {
  id : Z;
  title : string;
  description : string;
  video_url : string
}.
End Lesson.

Module Quiz.
Record t : Type := mk { id : Z; lesson_id : Z }.
End Quiz.

Module Question.
Record t : Type := mk { id : Z; quiz_id : Z; question_text : string }.
End Question.

Module QuizSubmission.
Record t : Type := mk {
  id : Z;
  quiz_id : Z;
  user_id : Z;
  submitted_at : datetime;
  score : option Z;
  is_graded : bool
}.
Definition grade (s : Z) (q : t) : t :=
  mk (id q) (quiz_id q) (user_id q) (submitted_at q) (Some s) true.
End QuizSubmission.

Module Answer.
Record t : Type := mk {
  id : Z;
  submission_id : Z;
  question_id : Z;
  answer_text : string
}.
End Answer.

Module AssignedTask.
Record t : Type := mk {
  id : Z;
  title : string;
  description : string;
  points : Z;
  deadline : datetime;
  created_at : datetime
}.
End AssignedTask.

Module TaskSubmission.
Record t : Type := mk {
  id : Z;
  task_id : Z;
  user_id : Z;
  filename : string;
  approved : bool;
  points_awarded : Z;
  submitted_at : datetime
}.
Definition grade (p : Z) (s : t) : t :=
  mk (id s) (task_id s) (user_id s) (filename s) true p (submitted_at s).
End TaskSubmission.

Module Game.
Record t : Type := mk { id : Z; name : string; url : string; skill : string }.
End Game.

Module GameScore.
Record t : Type := mk {
  id : Z;
  user_id : Z;
  game_id : Z;
  score : Z;
  submitted_at : datetime
}.
End GameScore.

Module Notice.
Record t : Type := mk { id : Z; message : string; created_at : datetime }.
End Notice.

(** The store: the twelve tables of [app.db] and the files of [MEDIA_DIR]. *)
Record Store : Type := mkStore {
  users : list User.t;
  user_profiles : list UserProfile.t;
  lessons : list Lesson.t;
  quizzes : list Quiz.t;
  questions : list Question.t;
  quiz_submissions : list QuizSubmission.t;
  answers : list Answer.t;
  assigned_tasks : list AssignedTask.t;
  task_submissions : list TaskSubmission.t;
  games : list Game.t;
  game_scores : list GameScore.t;
  notices : list Notice.t;
  media : gmap string (list Byte.byte)
}.

(** The store after [Base.metadata.create_all] on a new database file. *)
Definition empty_store : Store :=
  mkStore [] [] [] [] [] [] [] [] [] [] [] [] ∅.

Definition set_users (v : list User.t) (st : Store) : Store :=
  mkStore v (user_profiles st) (lessons st) (quizzes st) (questions st)
    (quiz_submissions st) (answers st) (assigned_tasks st)
    (task_submissions st) (games st) (game_scores st) (notices st) (media st).
Definition set_user_profiles (v : list UserProfile.t) (st : Store) : Store :=
  mkStore (users st) v (lessons st) (quizzes st) (questions st)
    (quiz_submissions st) (answers st) (assigned_tasks st)
    (task_submissions st) (games st) (game_scores st) (notices st) (media st).
Definition set_lessons (v : list Lesson.t) (st : Store) : Store :=
  mkStore (users st) (user_profiles st) v (quizzes st) (questions st)
    (quiz_submissions st) (answers st) (assigned_tasks st)
    (task_submissions st) (games st) (game_scores st) (notices st) (media st).
Definition set_quizzes (v : list Quiz.t) (st : Store) : Store :=
  mkStore (users st) (user_profiles st) (lessons st) v (questions st)
    (quiz_submissions st) (answers st) (assigned_tasks st)
    (task_submissions st) (games st) (game_scores st) (notices st) (media st).
Definition set_questions (v : list Question.t) (st : Store) : Store :=
  mkStore (users st) (user_profiles st) (lessons st) (quizzes st) v
    (quiz_submissions st) (answers st) (assigned_tasks st)
    (task_submissions st) (games st) (game_scores st) (notices st) (media st).
Definition set_quiz_submissions (v : list QuizSubmission.t) (st : Store) : Store :=
  mkStore (users st) (user_profiles st) (lessons st) (quizzes st) (questions st)
    v (answers st) (assigned_tasks st)
    (task_submissions st) (games st) (game_scores st) (notices st) (media st).
Definition set_answers (v : list Answer.t) (st : Store) : Store :=
  mkStore (users st) (user_profiles st) (lessons st) (quizzes st) (questions st)
    (quiz_submissions st) v (assigned_tasks st)
    (task_submissions st) (games st) (game_scores st) (notices st) (media st).
Definition set_assigned_tasks (v : list AssignedTask.t) (st : Store) : Store :=
  mkStore (users st) (user_profiles st) (lessons st) (quizzes st) (questions st)
    (quiz_submissions st) (answers st) v
    (task_submissions st) (games st) (game_scores st) (notices st) (media st).
Definition set_task_submissions (v : list TaskSubmission.t) (st : Store) : Store :=
  mkStore (users st) (user_profiles st) (lessons st) (quizzes st) (questions st)
    (quiz_submissions st) (answers st) (assigned_tasks st)
    v (games st) (game_scores st) (notices st) (media st).
Definition set_games (v : list Game.t) (st : Store) : Store :=
  mkStore (users st) (user_profiles st) (lessons st) (quizzes st) (questions st)
    (quiz_submissions st) (answers st) (assigned_tasks st)
    (task_submissions st) v (game_scores st) (notices st) (media st).
Definition set_game_scores (v : list GameScore.t) (st : Store) : Store :=
  mkStore (users st) (user_profiles st) (lessons st) (quizzes st) (questions st)
    (quiz_submissions st) (answers st) (assigned_tasks st)
    (task_submissions st) (games st) v (notices st) (media st).
Definition set_notices (v : list Notice.t) (st : Store) : Store :=
  mkStore (users st) (user_profiles st) (lessons st) (quizzes st) (questions st)
    (quiz_submissions st) (answers st) (assigned_tasks st)
    (task_submissions st) (games st) (game_scores st) v (media st).
Definition set_media (v : gmap string (list Byte.byte)) (st : Store) : Store :=
  mkStore (users st) (user_profiles st) (lessons st) (quizzes st) (questions st)
    (quiz_submissions st) (answers st) (assigned_tasks st)
    (task_submissions st) (games st) (game_scores st) (notices st) v.

(** ** Query helpers *)

(** The id of the next inserted row, from the ids already in the table. *)
Definition next_id (ids : list Z) : Z := 1 + foldr Z.max 0 ids.

(** [UPDATE ... WHERE id = k]: every row with that id is rewritten. *)
Definition update_where {A} (key : A -> Z) (k : Z) (f : A -> A) (rows : list A)
  : list A :=
  map (fun r => if bool_decide (key r = k) then f r else r) rows.

(** [query.get(k)]: the row with primary key [k], if any. *)
Definition get {A} (key : A -> Z) (k : Z) (rows : list A) : option A :=
  find (fun r => bool_decide (key r = k)) rows.

(** The two clocks read by the handlers. *)
Record Clock : Type := mkClock { utcnow : datetime; today : date }.

(** ** Request schemas *)

Module UserProfileIn.
Record t : Type := mk {
  name : string;
  register_number : option string;
  date_of_birth : option date;
  gender : option string;
  address : option string;
  residence : option string
}.
End UserProfileIn.

Module GameScoreIn.
Record t : Type := mk { game_id : Z; score : Z }.
End GameScoreIn.

Module LessonCreate.
Record t : Type := mk { title : string; description : string; video_url : string }.
End LessonCreate.

Module QuestionCreate.
Record t : Type := mk { question_text : string }.
End QuestionCreate.

Module QuizCreate.
Record t : Type := mk { questions : list QuestionCreate.t }.
End QuizCreate.

Module AnswerIn.
Record t : Type := mk { question_id : Z; answer_text : string }.
End AnswerIn.

Module QuizSubmissionIn.
Record t : Type := mk { answers : list AnswerIn.t }.
End QuizSubmissionIn.

Module QuizSubmissionScore.
Record t : Type := mk { score : Z }.
End QuizSubmissionScore.

Module TaskCreate.
Record t : Type := mk {
  title : string;
  description : string;
  points : Z;
  deadline : date
}.
End TaskCreate.

Module TaskGradeIn.
Record t : Type := mk { points : Z }.
End TaskGradeIn.

Module UploadFile.
Record t : Type := mk { filename : string; file : list Byte.byte }.
End UploadFile.

(** ** Authentication *)

Definition credentials_exception : exn :=
  HTTPException 401 "Could not validate credentials".

Definition get_current_user (token : option string) (st : Store) : result User.t :=
  match token with
  | None => Raise credentials_exception
  | Some email =>
      match find (fun u => bool_decide (User.email u = email)) (users st) with
      | None => Raise credentials_exception
      | Some user => Ok user
      end
  end.

Definition Forbidden : exn := HTTPException 403 "Forbidden".

Definition is_teacher (user : User.t) : bool :=
  bool_decide (User.role user = "teacher").

(** ** Demo data, seeded when the module is loaded *)

Definition demo_users (pw_student pw_teacher : string) (st : Store) : Store :=
  match users st with
  | _ :: _ => st
  | [] =>
      let student :=
        User.mk (next_id []) "demo@student.local" "Demo Student" pw_student
                "student" 0 in
      let teacher :=
        User.mk (next_id [User.id student]) "teacher@school.local"
                "Demo Teacher" pw_teacher "teacher" 0 in
      let student_profile :=
        UserProfile.mk (next_id (map UserProfile.id (user_profiles st)))
                       (User.id student) None None None None None in
      set_user_profiles (user_profiles st ++ [student_profile])
        (set_users [student; teacher] st)
  end.

Definition demo_games (st : Store) : Store :=
  match games st with
  | _ :: _ => st
  | [] =>
      set_games
        [ Game.mk 1 "Typing Speed Test" "https://play.typeracer.com/"
                  "Typing Speed";
          Game.mk 2 "Logical Puzzles"
                  "https://www.brainzilla.com/logic/logic-grid-puzzles/"
                  "Logical Skill";
          Game.mk 3 "Math Playground" "https://www.mathplayground.com/"
                  "Mathematical Ability" ] st
  end.

Definition demo_notice (clk : Clock) (st : Store) : Store :=
  match notices st with
  | _ :: _ => st
  | [] =>
      set_notices
        [ Notice.mk 1
            "Welcome to the new EcoLearners Platform! Please complete your profile."
            (utcnow clk) ] st
  end.

(** [pw_student] and [pw_teacher] are the bcrypt hashes of the two demo
    passwords. *)
Definition demo_data (clk : Clock) (pw_student pw_teacher : string) (st : Store)
  : Store :=
  demo_notice clk (demo_games (demo_users pw_student pw_teacher st)).

(** ** Profile *)

Definition update_profile (profile_data : UserProfileIn.t) (st : Store)
    (user : User.t) : result (Store * unit) :=
  let st1 :=
    set_users (update_where User.id (User.id user)
                 (User.set_name (UserProfileIn.name profile_data)) (users st)) st in
  let fill (pid : Z) : UserProfile.t :=
    UserProfile.mk pid (User.id user)
      (UserProfileIn.register_number profile_data)
      (UserProfileIn.date_of_birth profile_data)
      (UserProfileIn.gender profile_data)
      (UserProfileIn.address profile_data)
      (UserProfileIn.residence profile_data) in
  match find (fun p => bool_decide (UserProfile.user_id p = User.id user))
             (user_profiles st) with
  | None =>
      Ok (set_user_profiles
            (user_profiles st
               ++ [fill (next_id (map UserProfile.id (user_profiles st)))]) st1,
          ())
  | Some profile =>
      Ok (set_user_profiles
            (update_where UserProfile.id (UserProfile.id profile)
               (fun _ => fill (UserProfile.id profile)) (user_profiles st)) st1,
          ())
  end.

(** ** Games and the notice board *)

Definition add_game (name url skill : string) (st : Store) (user : User.t)
  : result (Store * string) :=
  if negb (is_teacher user) then Raise Forbidden else
  let new_game := Game.mk (next_id (map Game.id (games st))) name url skill in
  Ok (set_games (games st ++ [new_game]) st, "Game added").

(** Deleting a game deletes its scores: the [scores] relationship cascades. *)
Definition delete_game (game_id : Z) (st : Store) (user : User.t)
  : result (Store * unit) :=
  if negb (is_teacher user) then Raise Forbidden else
  match get Game.id game_id (games st) with
  | None => Raise (HTTPException 404 "Game not found")
  | Some game =>
      Ok (set_games
            (filter (fun g => Game.id g ≠ Game.id game) (games st))
            (set_game_scores
               (filter (fun s => GameScore.game_id s ≠ Game.id game)
                       (game_scores st)) st),
          ())
  end.

Definition submit_game_score (clk : Clock) (score_in : GameScoreIn.t)
    (st : Store) (user : User.t) : result (Store * string) :=
  let new_score :=
    GameScore.mk (next_id (map GameScore.id (game_scores st))) (User.id user)
      (GameScoreIn.game_id score_in) (GameScoreIn.score score_in) (utcnow clk) in
  Ok (set_game_scores (game_scores st ++ [new_score]) st, "Score submitted").

Definition post_notice (clk : Clock) (message : string) (st : Store)
    (user : User.t) : result (Store * string) :=
  if negb (is_teacher user) then Raise Forbidden else
  let st1 := set_notices [] st in
  let new_notice :=
    Notice.mk (next_id (map Notice.id (notices st1))) message (utcnow clk) in
  Ok (set_notices (notices st1 ++ [new_notice]) st1, "Notice posted").

(** ** Reports *)

Module StudentReportOut.
Record t : Type := mk {
  user : User.t;
  academic_score : Z;
  soft_skills : gmap string Q
}.
End StudentReportOut.

(** [func.sum(col)]: NULL over no non-NULL value, otherwise their sum. *)
Definition sql_sum (col : list (option Z)) : option Z :=
  match omap (fun v => v) col with
  | [] => None
  | v :: vs => Some (foldr Z.add 0 (v :: vs))
  end.

(** [x or 0]. *)
Definition or_zero (x : option Z) : Z :=
  match x with
  | None => 0
  | Some v => if bool_decide (v = 0) then 0 else v
  end.

(** The body of the loop that buckets a student's game scores by the skill
    of their game; a score whose game is gone is skipped. *)
Definition bucket_score (games : list Game.t) (skills : gmap string (list Z))
    (score : GameScore.t) : gmap string (list Z) :=
  match get Game.id (GameScore.game_id score) games with
  | Some game =>
      <[Game.skill game :=
          default [] (skills !! Game.skill game) ++ [GameScore.score score]]>
        skills
  | None => skills
  end.

Definition bucket_skills (games : list Game.t) (game_scores : list GameScore.t)
  : gmap string (list Z) :=
  foldl (bucket_score games) ∅ game_scores.

Definition py_sum (scores : list Z) : Z := foldr Z.add 0 scores.

(** [sum(scores)/len(scores)] as the exact quotient; Python returns the
    double nearest to it.  Only meaningful on a non-empty list. *)
Definition mean (scores : list Z) : Q :=
  Qmake (py_sum scores) (Pos.of_nat (length scores)).

(** The dict comprehension; it raises when some bucket is empty. *)
Definition average_skills (skills : gmap string (list Z))
  : result (gmap string Q) :=
  if decide (map_Forall (fun _ scores => scores ≠ @nil Z) skills)
  then Ok (mean <$> skills)
  else Raise ZeroDivisionError.

Definition get_student_report (student_id : Z) (st : Store) (user : User.t)
  : result StudentReportOut.t :=
  if negb (is_teacher user) && negb (bool_decide (User.id user = student_id))
  then Raise Forbidden else
  match get User.id student_id (users st) with
  | None => Raise (HTTPException 404 "Student not found")
  | Some student =>
      if negb (bool_decide (User.role student = "student"))
      then Raise (HTTPException 404 "Student not found") else
      let task_points :=
        or_zero (sql_sum
          (map (fun s => Some (TaskSubmission.points_awarded s))
             (filter (fun s => TaskSubmission.user_id s = student_id)
                     (task_submissions st)))) in
      let quiz_points :=
        or_zero (sql_sum
          (map QuizSubmission.score
             (filter (fun s => QuizSubmission.user_id s = student_id)
                     (quiz_submissions st)))) in
      let academic_score := task_points + quiz_points in
      let game_scores :=
        filter (fun s => GameScore.user_id s = student_id) (game_scores st) in
      let skills := bucket_skills (games st) game_scores in
      avg_skills ← average_skills skills;
      Ok (StudentReportOut.mk student academic_score avg_skills)
  end.

(** ** Lessons and quizzes *)

Definition create_lesson (lesson : LessonCreate.t) (st : Store) (user : User.t)
  : result (Store * Lesson.t) :=
  if negb (is_teacher user) then Raise Forbidden else
  let new_lesson :=
    Lesson.mk (next_id (map Lesson.id (lessons st))) (LessonCreate.title lesson)
      (LessonCreate.description lesson) (LessonCreate.video_url lesson) in
  Ok (set_lessons (lessons st ++ [new_lesson]) st, new_lesson).

Definition append_questions (quiz_id : Z) (qs : list QuestionCreate.t)
    (rows : list Question.t) : list Question.t :=
  foldl (fun rows q_in =>
           rows ++ [Question.mk (next_id (map Question.id rows)) quiz_id
                      (QuestionCreate.question_text q_in)])
        rows qs.

Definition create_or_update_quiz (lesson_id : Z) (quiz_in : QuizCreate.t)
    (st : Store) (user : User.t) : result (Store * string) :=
  if negb (is_teacher user) then Raise Forbidden else
  match get Lesson.id lesson_id (lessons st) with
  | None => Raise (HTTPException 404 "Lesson not found")
  | Some lesson =>
      match find (fun q => bool_decide (Quiz.lesson_id q = Lesson.id lesson))
                 (quizzes st) with
      | Some quiz =>
          let kept :=
            filter (fun q => Question.quiz_id q ≠ Quiz.id quiz) (questions st) in
          Ok (set_questions
                (append_questions (Quiz.id quiz) (QuizCreate.questions quiz_in) kept)
                st,
              "Quiz saved successfully")
      | None =>
          let quiz := Quiz.mk (next_id (map Quiz.id (quizzes st))) lesson_id in
          Ok (set_questions
                (append_questions (Quiz.id quiz) (QuizCreate.questions quiz_in)
                   (questions st))
                (set_quizzes (quizzes st ++ [quiz]) st),
              "Quiz saved successfully")
      end
  end.

Definition append_answers (submission_id : Z) (ans : list AnswerIn.t)
    (rows : list Answer.t) : list Answer.t :=
  foldl (fun rows ans_in =>
           rows ++ [Answer.mk (next_id (map Answer.id rows)) submission_id
                      (AnswerIn.question_id ans_in) (AnswerIn.answer_text ans_in)])
        rows ans.

Definition submit_quiz (clk : Clock) (quiz_id : Z)
    (submission_in : QuizSubmissionIn.t) (st : Store) (user : User.t)
  : result (Store * string) :=
  match get Quiz.id quiz_id (quizzes st) with
  | None => Raise (HTTPException 404 "Quiz not found")
  | Some quiz =>
      match find (fun s => bool_decide (QuizSubmission.user_id s = User.id user)
                           && bool_decide (QuizSubmission.quiz_id s = quiz_id))
                 (quiz_submissions st) with
      | Some _ =>
          Raise (HTTPException 400 "You have already submitted this quiz.")
      | None =>
          let new_submission :=
            QuizSubmission.mk (next_id (map QuizSubmission.id (quiz_submissions st)))
              quiz_id (User.id user) (utcnow clk) None false in
          Ok (set_answers
                (append_answers (QuizSubmission.id new_submission)
                   (QuizSubmissionIn.answers submission_in) (answers st))
                (set_quiz_submissions (quiz_submissions st ++ [new_submission]) st),
              "Quiz submitted for review")
      end
  end.

(** ** Tasks *)

(** [datetime.combine(d, datetime.max.time())]: the last microsecond of day [d]. *)
Definition end_of_day (d : date) : datetime := d * 86400000000 + 86399999999.

Definition assign_task (clk : Clock) (task : TaskCreate.t) (st : Store)
    (user : User.t) : result (Store * (string * Z)) :=
  if negb (is_teacher user) then Raise Forbidden else
  if bool_decide (TaskCreate.deadline task < today clk)
  then Raise (HTTPException 400 "Deadline cannot be in the past.") else
  let new_task :=
    AssignedTask.mk (next_id (map AssignedTask.id (assigned_tasks st)))
      (TaskCreate.title task) (TaskCreate.description task)
      (TaskCreate.points task) (end_of_day (TaskCreate.deadline task))
      (utcnow clk) in
  Ok (set_assigned_tasks (assigned_tasks st ++ [new_task]) st,
      ("Task assigned", AssignedTask.id new_task)).

(** The f-string [f"{user.id}_{task_id}_{file.filename}"]. *)
Definition stored_filename (user_id task_id : Z) (original : string) : string :=
  pretty user_id +:+ "_" +:+ pretty task_id +:+ "_" +:+ original.

Definition submit_task (clk : Clock) (task_id : Z) (file : UploadFile.t)
    (st : Store) (user : User.t) : result (Store * string) :=
  match find (fun s => bool_decide (TaskSubmission.user_id s = User.id user)
                       && bool_decide (TaskSubmission.task_id s = task_id))
             (task_submissions st) with
  | Some _ => Raise (HTTPException 400 "Already submitted.")
  | None =>
      let filename := stored_filename (User.id user) task_id (UploadFile.filename file) in
      let st1 := set_media (<[filename := UploadFile.file file]> (media st)) st in
      let submission :=
        TaskSubmission.mk (next_id (map TaskSubmission.id (task_submissions st)))
          task_id (User.id user) filename false 0 (utcnow clk) in
      Ok (set_task_submissions (task_submissions st1 ++ [submission]) st1,
          "Submission successful")
  end.

Module TaskSubmissionRow.
Record t : Type := mk {
  id : Z;
  student_name : string;
  task_title : string;
  filename : string;
  max_points : Z
}.
End TaskSubmissionRow.

(** The teacher's list of ungraded task submissions; [s.student] and
    [s.task] are [None] when the referenced row does not exist. *)
Definition get_task_submissions (st : Store) (user : User.t)
  : result (list TaskSubmissionRow.t) :=
  if negb (is_teacher user) then Raise Forbidden else
  let subs := filter (fun s => TaskSubmission.approved s = false)
                     (task_submissions st) in
  mapM (fun s =>
          match get User.id (TaskSubmission.user_id s) (users st) with
          | None => Raise AttributeError
          | Some student =>
              match get AssignedTask.id (TaskSubmission.task_id s)
                        (assigned_tasks st) with
              | None => Raise AttributeError
              | Some task =>
                  Ok (TaskSubmissionRow.mk (TaskSubmission.id s)
                        (User.name student) (AssignedTask.title task)
                        (TaskSubmission.filename s) (AssignedTask.points task))
              end
          end) subs.

(** ** Grading *)

Definition not_found_or_graded : exn :=
  HTTPException 404 "Not found or already graded.".

Definition grade_task_submission (submission_id : Z) (grade : TaskGradeIn.t)
    (st : Store) (user : User.t) : result (Store * string) :=
  if negb (is_teacher user) then Raise Forbidden else
  match get TaskSubmission.id submission_id (task_submissions st) with
  | None => Raise not_found_or_graded
  | Some sub =>
      if TaskSubmission.approved sub then Raise not_found_or_graded else
      match get User.id (TaskSubmission.user_id sub) (users st) with
      | None => Raise AttributeError
      | Some student =>
          Ok (set_users
                (update_where User.id (User.id student)
                   (User.set_points (User.points student + TaskGradeIn.points grade))
                   (users st))
                (set_task_submissions
                   (update_where TaskSubmission.id (TaskSubmission.id sub)
                      (TaskSubmission.grade (TaskGradeIn.points grade))
                      (task_submissions st)) st),
              "Task graded")
      end
  end.

Definition grade_quiz_submission (submission_id : Z) (grade : QuizSubmissionScore.t)
    (st : Store) (user : User.t) : result (Store * string) :=
  if negb (is_teacher user) then Raise Forbidden else
  match get QuizSubmission.id submission_id (quiz_submissions st) with
  | None => Raise not_found_or_graded
  | Some sub =>
      if QuizSubmission.is_graded sub then Raise not_found_or_graded else
      match get User.id (QuizSubmission.user_id sub) (users st) with
      | None => Raise AttributeError
      | Some student =>
          Ok (set_users
                (update_where User.id (User.id student)
                   (User.set_points
                      (User.points student + QuizSubmissionScore.score grade))
                   (users st))
                (set_quiz_submissions
                   (update_where QuizSubmission.id (QuizSubmission.id sub)
                      (QuizSubmission.grade (QuizSubmissionScore.score grade))
                      (quiz_submissions st)) st),
              "Quiz graded")
      end
  end.

(** ** Leaderboard *)

Definition points_desc (u v : User.t) : Prop := User.points v <= User.points u.

Global Instance points_desc_dec u v : Decision (points_desc u v).
Proof. unfold points_desc. apply _. Defined.

Definition leaderboard (st : Store) : list User.t :=
  take 10 (merge_sort points_desc
             (filter (fun u => User.role u = "student") (users st))).

(** ** The service as a transition system *)

(** The endpoints that write.  The GET endpoints never commit and are not
    transitions. *)
Inductive request : Type :=
| UpdateProfile (profile_data : UserProfileIn.t)
| AddGame (name url skill : string)
| DeleteGame (game_id : Z)
| SubmitGameScore (score_in : GameScoreIn.t)
| PostNotice (message : string)
| CreateLesson (lesson : LessonCreate.t)
| CreateOrUpdateQuiz (lesson_id : Z) (quiz_in : QuizCreate.t)
| SubmitQuiz (quiz_id : Z) (submission_in : QuizSubmissionIn.t)
| AssignTask (task : TaskCreate.t)
| SubmitTask (task_id : Z) (file : UploadFile.t)
| GradeTaskSubmission (submission_id : Z) (grade : TaskGradeIn.t)
| GradeQuizSubmission (submission_id : Z) (grade : QuizSubmissionScore.t).

Definition dispatch (clk : Clock) (r : request) (st : Store) (user : User.t)
  : result Store :=
  match r with
  | UpdateProfile d => fst <$> update_profile d st user
  | AddGame n u s => fst <$> add_game n u s st user
  | DeleteGame g => fst <$> delete_game g st user
  | SubmitGameScore s => fst <$> submit_game_score clk s st user
  | PostNotice m => fst <$> post_notice clk m st user
  | CreateLesson l => fst <$> create_lesson l st user
  | CreateOrUpdateQuiz l q => fst <$> create_or_update_quiz l q st user
  | SubmitQuiz q s => fst <$> submit_quiz clk q s st user
  | AssignTask t => fst <$> assign_task clk t st user
  | SubmitTask t f => fst <$> submit_task clk t f st user
  | GradeTaskSubmission s g => fst <$> grade_task_submission s g st user
  | GradeQuizSubmission s g => fst <$> grade_quiz_submission s g st user
  end.

(** One authenticated call: the [get_current_user] dependency, then the
    handler. *)
Definition serve (token : option string) (clk : Clock) (r : request) (st : Store)
  : result Store :=
  user ← get_current_user token st; dispatch clk r st user.

Inductive event : Type :=
| Startup (clk : Clock) (pw_student pw_teacher : string)
| Call (token : option string) (clk : Clock) (r : request).

(** A call that raises commits nothing. *)
Definition step (ev : event) (st : Store) : Store :=
  match ev with
  | Startup clk pw_student pw_teacher => demo_data clk pw_student pw_teacher st
  | Call token clk r =>
      match serve token clk r st with
      | Ok st' => st'
      | Raise _ => st
      end
  end.

Definition run (evs : list event) (st : Store) : Store :=
  foldl (fun st ev => step ev st) st evs.

Definition reachable (st : Store) : Prop :=
  exists evs, st = run evs empty_store.

Definition user_points (st : Store) (user_id : Z) : option Z :=
  User.points <$> get User.id user_id (users st).


(** ** Concrete traces used in the examples *)

Definition student_token : option string := Some "demo@student.local".
Definition teacher_token : option string := Some "teacher@school.local".
Definition clock0 : Clock := mkClock 1700000000000000 19675.

Definition demo_store : Store := run [Startup clock0 "$2b$student" "$2b$teacher"] empty_store.

Definition report_file : UploadFile.t :=
  UploadFile.mk "report.pdf" [Byte.x25; Byte.x50; Byte.x44; Byte.x46].

Definition demo_quiz : QuizCreate.t :=
  QuizCreate.mk [QuestionCreate.mk "What is compost?";
                 QuestionCreate.mk "Name a renewable energy source."].

Definition demo_answers : QuizSubmissionIn.t :=
  QuizSubmissionIn.mk [AnswerIn.mk 1 "a"; AnswerIn.mk 2 "b"].

(** The student has earned 100 points on a first task and has handed in a
    second task (submission 2) and a quiz (submission 1), both ungraded. *)
Definition scenario_events : list event :=
  [ Startup clock0 "$2b$student" "$2b$teacher";
    Call teacher_token clock0
      (AssignTask (TaskCreate.mk "Plant a tree" "Upload a photo" 100 19700));
    Call student_token clock0 (SubmitTask 1 report_file);
    Call teacher_token clock0 (GradeTaskSubmission 1 (TaskGradeIn.mk 100));
    Call teacher_token clock0
      (AssignTask (TaskCreate.mk "Recycle" "Upload a report" 50 19700));
    Call student_token clock0 (SubmitTask 2 report_file);
    Call teacher_token clock0
      (CreateLesson (LessonCreate.mk "Soil" "About soil" "https://example.org/v"));
    Call teacher_token clock0 (CreateOrUpdateQuiz 1 demo_quiz);
    Call student_token clock0 (SubmitQuiz 1 demo_answers) ].

Definition scenario_store : Store := run scenario_events empty_store.

(** What happens after the scenario in the example of a second grade. *)
Definition later_events : list event :=
  [Call student_token clock0 (SubmitGameScore (GameScoreIn.mk 1 40))].

Definition demo_teacher : User.t :=
  User.mk 2 "teacher@school.local" "Demo Teacher" "$2b$teacher" "teacher" 0.

(** ** Views shared by the two kinds of submission *)

Inductive kind : Type := Task | Quiz.

Definition grade_request (k : kind) (submission_id p : Z) : request :=
  match k with
  | Task => GradeTaskSubmission submission_id (TaskGradeIn.mk p)
  | Quiz => GradeQuizSubmission submission_id (QuizSubmissionScore.mk p)
  end.

(** Whether submission [sid] is graded; [None] when there is no such row. *)
Definition submission_graded (k : kind) (st : Store) (sid : Z) : option bool :=
  match k with
  | Task => TaskSubmission.approved <$> get TaskSubmission.id sid (task_submissions st)
  | Quiz => QuizSubmission.is_graded <$> get QuizSubmission.id sid (quiz_submissions st)
  end.

Definition submission_owner (k : kind) (st : Store) (sid : Z) : option Z :=
  match k with
  | Task => TaskSubmission.user_id <$> get TaskSubmission.id sid (task_submissions st)
  | Quiz => QuizSubmission.user_id <$> get QuizSubmission.id sid (quiz_submissions st)
  end.

(** The points a request asks to award, for the two grading requests. *)
Definition awarded (r : request) : option Z :=
  match r with
  | GradeTaskSubmission _ g => Some (TaskGradeIn.points g)
  | GradeQuizSubmission _ g => Some (QuizSubmissionScore.score g)
  | _ => None
  end.


(** The submissions of user [u] for item [i], as the duplicate checks of
    [submit_task] and [submit_quiz] select them. *)
Definition task_submissions_of (st : Store) (u i : Z) : list TaskSubmission.t :=
  List.filter (fun s => bool_decide (TaskSubmission.user_id s = u)
                        && bool_decide (TaskSubmission.task_id s = i))
              (task_submissions st).

Definition quiz_submissions_of (st : Store) (u i : Z) : list QuizSubmission.t :=
  List.filter (fun s => bool_decide (QuizSubmission.user_id s = u)
                        && bool_decide (QuizSubmission.quiz_id s = i))
              (quiz_submissions st).

(** The ledger invariant: one submission per (user, item) at most, and every
    quiz submission refers to a quiz of the store. *)
Record ledger_ok (st : Store) : Prop := mk_ledger_ok {
  one_task_submission : forall u i, (length (task_submissions_of st u i) <= 1)%nat;
  one_quiz_submission : forall u i, (length (quiz_submissions_of st u i) <= 1)%nat;
  quiz_of_submission :
    forall s, s ∈ quiz_submissions st ->
              is_Some (get Quiz.id (QuizSubmission.quiz_id s) (quizzes st))
}.

Definition scenario_student : User.t :=
  User.mk 1 "demo@student.local" "Demo Student" "$2b$student" "student" 100.

Definition demo_student : User.t :=
  User.mk 1 "demo@student.local" "Demo Student" "$2b$student" "student" 0.

(** The demo store after the student has handed in a file for task 999,
    which nobody assigned. *)
Definition orphan_store : Store :=
  step (Call student_token clock0 (SubmitTask 999 report_file)) demo_store.

(** ** The report, as the specification describes it *)

(** The points awarded on the graded task submissions of a student. *)
Definition graded_task_points (st : Store) (student_id : Z) : Z :=
  py_sum (map TaskSubmission.points_awarded
            (filter (fun s => TaskSubmission.approved s = true)
               (filter (fun s => TaskSubmission.user_id s = student_id)
                       (task_submissions st)))).

(** The scores of the graded quiz submissions of a student. *)
Definition graded_quiz_points (st : Store) (student_id : Z) : Z :=
  py_sum (map (fun s => default 0 (QuizSubmission.score s))
            (filter (fun s => QuizSubmission.is_graded s = true)
               (filter (fun s => QuizSubmission.user_id s = student_id)
                       (quiz_submissions st)))).

(** The scores of [game_scores] whose game is in [games] and carries
    [skill], in order. *)
Definition skill_scores (games : list Game.t) (game_scores : list GameScore.t)
    (skill : string) : list Z :=
  omap (fun s =>
          match get Game.id (GameScore.game_id s) games with
          | Some game =>
              if bool_decide (Game.skill game = skill)
              then Some (GameScore.score s) else None
          | None => None
          end)
       game_scores.


(** An ungraded submission carries no points: the column defaults. *)
Record grades_ok (st : Store) : Prop := mk_grades_ok {
  ungraded_task :
    Forall (fun s => TaskSubmission.approved s = false ->
                     TaskSubmission.points_awarded s = 0) (task_submissions st);
  ungraded_quiz :
    Forall (fun s => QuizSubmission.is_graded s = false ->
                     QuizSubmission.score s = None) (quiz_submissions st)
}.

(** The scenario, then the quiz graded 20; task submission 2 stays ungraded. *)
Definition graded_events : list event :=
  scenario_events
    ++ [Call teacher_token clock0 (GradeQuizSubmission 1 (QuizSubmissionScore.mk 20))].

(** The demo store after the student has played: two scores on game 1, one
    on game 2 and one on game 3; then the teacher deletes game 3. *)
Definition games_events : list event :=
  [ Startup clock0 "$2b$student" "$2b$teacher";
    Call student_token clock0 (SubmitGameScore (GameScoreIn.mk 1 40));
    Call student_token clock0 (SubmitGameScore (GameScoreIn.mk 2 7));
    Call student_token clock0 (SubmitGameScore (GameScoreIn.mk 1 55));
    Call student_token clock0 (SubmitGameScore (GameScoreIn.mk 3 90));
    Call teacher_token clock0 (DeleteGame 3) ].

Definition games_store : Store := run games_events empty_store.




(** The students of the store, in rowid order. *)
Definition students (st : Store) : list User.t :=
  filter (fun u => User.role u = "student") (users st).

(** A class of eleven students and their teacher. *)
Definition pupil (n : Z) (pts : Z) : User.t :=
  User.mk n ("pupil" +:+ pretty n +:+ "@school.local") ("Pupil " +:+ pretty n)
          "$2b$pupil" "student" pts.

Definition class_store : Store :=
  set_users
    [ pupil 1 30; pupil 2 120; User.mk 3 "teacher@school.local" "Demo Teacher"
                                 "$2b$teacher" "teacher" 500;
      pupil 4 0; pupil 5 75; pupil 6 75; pupil 7 10; pupil 8 200; pupil 9 5;
      pupil 10 60; pupil 11 45; pupil 12 90 ]
    empty_store.

(** Whether character [c] occurs in [s]. *)
Fixpoint occurs (c : ascii) (s : string) : bool :=
  match s with
  | EmptyString => false
  | String a s' => bool_decide (a = c) || occurs c s'
  end.

(** ** Further views of the service *)

(** The write requests whose handler starts with the role check. *)
Definition teacher_only (r : request) : bool :=
  match r with
  | AddGame _ _ _ | DeleteGame _ | PostNotice _ | CreateLesson _
  | CreateOrUpdateQuiz _ _ | AssignTask _
  | GradeTaskSubmission _ _ | GradeQuizSubmission _ _ => true
  | UpdateProfile _ | SubmitGameScore _ | SubmitQuiz _ _ | SubmitTask _ _ => false
  end.

(** Attempts to grade the graded submissions again, between other calls. *)
Definition regrade_events : list event :=
  [ Call teacher_token clock0 (GradeTaskSubmission 1 (TaskGradeIn.mk 7));
    Call student_token clock0 (SubmitTask 3 report_file);
    Call teacher_token clock0 (GradeQuizSubmission 1 (QuizSubmissionScore.mk 9));
    Call teacher_token clock0 (GradeTaskSubmission 2 (TaskGradeIn.mk 50)) ].

Definition graded_store : Store := run graded_events empty_store.

(** Primary keys: within each table no id occurs twice. *)
Record keys_ok (st : Store) : Prop := mk_keys_ok {
  users_keys : NoDup (map User.id (users st));
  user_profiles_keys : NoDup (map UserProfile.id (user_profiles st));
  lessons_keys : NoDup (map Lesson.id (lessons st));
  quizzes_keys : NoDup (map Quiz.id (quizzes st));
  questions_keys : NoDup (map Question.id (questions st));
  quiz_submissions_keys : NoDup (map QuizSubmission.id (quiz_submissions st));
  answers_keys : NoDup (map Answer.id (answers st));
  assigned_tasks_keys : NoDup (map AssignedTask.id (assigned_tasks st));
  task_submissions_keys : NoDup (map TaskSubmission.id (task_submissions st));
  games_keys : NoDup (map Game.id (games st));
  game_scores_keys : NoDup (map GameScore.id (game_scores st));
  notices_keys : NoDup (map Notice.id (notices st))
}.

(** What a user has earned: the scores of their graded submissions. *)
Definition earned (st : Store) (user_id : Z) : Z :=
  graded_task_points st user_id + graded_quiz_points st user_id.

(** Every submission has its owner among the users, and every user's points
    are what the user has earned. *)
Record accounts_ok (st : Store) : Prop := mk_accounts_ok {
  task_owner :
    forall s, s ∈ task_submissions st ->
              TaskSubmission.user_id s ∈ map User.id (users st);
  quiz_owner :
    forall s, s ∈ quiz_submissions st ->
              QuizSubmission.user_id s ∈ map User.id (users st);
  balance :
    forall uid P, user_points st uid = Some P -> P = earned st uid
}.

(** The graded sums of a table, for one owner. *)
Definition task_sum (u : Z) (l : list TaskSubmission.t) : Z :=
  py_sum (map TaskSubmission.points_awarded
            (filter (fun s => TaskSubmission.approved s = true)
               (filter (fun s => TaskSubmission.user_id s = u) l))).

Definition quiz_sum (u : Z) (l : list QuizSubmission.t) : Z :=
  py_sum (map (fun s => default 0 (QuizSubmission.score s))
            (filter (fun s => QuizSubmission.is_graded s = true)
               (filter (fun s => QuizSubmission.user_id s = u) l))).


(** ** Read-only endpoints *)

Module NoticeOut.
Record t : Type := mk { message : string; created_at : datetime }.
End NoticeOut.

Definition created_desc (a b : Notice.t) : Prop :=
  Notice.created_at b <= Notice.created_at a.

Global Instance created_desc_dec a b : Decision (created_desc a b).
Proof. unfold created_desc. apply _. Defined.

Definition get_latest_notice (clk : Clock) (st : Store) : NoticeOut.t :=
  match merge_sort created_desc (notices st) with
  | notice :: _ => NoticeOut.mk (Notice.message notice) (Notice.created_at notice)
  | [] => NoticeOut.mk "No notices yet." (utcnow clk)
  end.

Definition get_games (st : Store) : list Game.t := games st.

Definition get_all_students (st : Store) (user : User.t) : result (list User.t) :=
  if negb (is_teacher user) then Raise Forbidden else
  Ok (filter (fun u => User.role u = "student") (users st)).

Module QuestionOut.
Record t : Type := mk { id : Z; question_text : string }.
End QuestionOut.

Module QuizOut.
Record t : Type := mk {
  id : Z;
  lesson_id : Z;
  questions : list QuestionOut.t;
  total_points : Z
}.
End QuizOut.

Module QuizSubmissionStatus.
Record t : Type := mk { is_graded : bool; score : option Z }.
End QuizSubmissionStatus.

Module LessonQuizResponse.
Record t : Type := mk {
  lesson : Lesson.t;
  quiz : option QuizOut.t;
  submission : option QuizSubmissionStatus.t
}.
End LessonQuizResponse.

(** [lesson.quiz]: the quiz whose [lesson_id] is the lesson's id. *)
Definition quiz_of_lesson (st : Store) (lesson : Lesson.t) : option Quiz.t :=
  find (fun q => bool_decide (Quiz.lesson_id q = Lesson.id lesson)) (quizzes st).

(** [quiz.questions]: the questions whose [quiz_id] is the quiz's id. *)
Definition questions_of_quiz (st : Store) (quiz : Quiz.t) : list Question.t :=
  filter (fun q => Question.quiz_id q = Quiz.id quiz) (questions st).

Definition get_lesson_and_quiz (lesson_id : Z) (st : Store) (user : User.t)
  : result LessonQuizResponse.t :=
  match get Lesson.id lesson_id (lessons st) with
  | None => Raise (HTTPException 404 "Lesson not found")
  | Some lesson =>
      match quiz_of_lesson st lesson with
      | None => Ok (LessonQuizResponse.mk lesson None None)
      | Some quiz =>
          let questions := questions_of_quiz st quiz in
          let total_points := Z.of_nat (length questions) * 10 in
          let quiz_out :=
            QuizOut.mk (Quiz.id quiz) (Lesson.id lesson)
              (map (fun q => QuestionOut.mk (Question.id q) (Question.question_text q))
                   questions)
              total_points in
          let submission :=
            find (fun s => bool_decide (QuizSubmission.user_id s = User.id user)
                           && bool_decide (QuizSubmission.quiz_id s = Quiz.id quiz))
                 (quiz_submissions st) in
          Ok (LessonQuizResponse.mk lesson (Some quiz_out)
                (option_map
                   (fun s => QuizSubmissionStatus.mk (QuizSubmission.is_graded s)
                                                     (QuizSubmission.score s))
                   submission))
      end
  end.

Module TaskSubmissionStatus.
Record t : Type := mk { approved : bool; points_awarded : Z }.
End TaskSubmissionStatus.

Module AssignedTaskForStudent.
Record t : Type := mk {
  id : Z;
  title : string;
  description : string;
  points : Z;
  deadline : datetime;
  submission_status : option TaskSubmissionStatus.t
}.
End AssignedTaskForStudent.

Definition deadline_asc (a b : AssignedTask.t) : Prop :=
  AssignedTask.deadline a <= AssignedTask.deadline b.

Global Instance deadline_asc_dec a b : Decision (deadline_asc a b).
Proof. unfold deadline_asc. apply _. Defined.

Definition task_for_student (st : Store) (user : User.t) (task : AssignedTask.t)
  : AssignedTaskForStudent.t :=
  let submission :=
    find (fun s => bool_decide (TaskSubmission.user_id s = User.id user)
                   && bool_decide (TaskSubmission.task_id s = AssignedTask.id task))
         (task_submissions st) in
  AssignedTaskForStudent.mk (AssignedTask.id task) (AssignedTask.title task)
    (AssignedTask.description task) (AssignedTask.points task)
    (AssignedTask.deadline task)
    (option_map
       (fun s => TaskSubmissionStatus.mk (TaskSubmission.approved s)
                                         (TaskSubmission.points_awarded s))
       submission).

Definition list_tasks_for_student (st : Store) (user : User.t)
  : list AssignedTaskForStudent.t :=
  map (task_for_student st user) (merge_sort deadline_asc (assigned_tasks st)).

Module QuizSubmissionRow.
Record t : Type := mk { id : Z; student_name : string; quiz_title : string }.
End QuizSubmissionRow.

(** The teacher's list of ungraded quiz submissions; [s.student], [s.quiz]
    and [s.quiz.lesson] are [None] when the referenced row does not exist. *)
Definition get_quiz_submissions (st : Store) (user : User.t)
  : result (list QuizSubmissionRow.t) :=
  if negb (is_teacher user) then Raise Forbidden else
  let subs := filter (fun s => QuizSubmission.is_graded s = false)
                     (quiz_submissions st) in
  mapM (fun s =>
          match get User.id (QuizSubmission.user_id s) (users st) with
          | None => Raise AttributeError
          | Some student =>
              match get Quiz.id (QuizSubmission.quiz_id s) (quizzes st) with
              | None => Raise AttributeError
              | Some quiz =>
                  match get Lesson.id (Quiz.lesson_id quiz) (lessons st) with
                  | None => Raise AttributeError
                  | Some lesson =>
                      Ok (QuizSubmissionRow.mk (QuizSubmission.id s)
                            (User.name student) (Lesson.title lesson))
                  end
              end
          end) subs.

Definition tree_task : TaskCreate.t :=
  TaskCreate.mk "Plant a tree" "Upload a photo" 100 (today clock0).


(** Every question belongs to a quiz of the store. *)
Definition questions_ok (st : Store) : Prop :=
  forall q, q ∈ questions st -> Question.quiz_id q ∈ map Quiz.id (quizzes st).

Definition revised_quiz : QuizCreate.t :=
  QuizCreate.mk [QuestionCreate.mk "What lives in soil?";
                 QuestionCreate.mk "What is humus?";
                 QuestionCreate.mk "Name a decomposer."].

(** The demo store after the teacher has assigned one task. *)
Definition assigned_events : list event :=
  [ Startup clock0 "$2b$student" "$2b$teacher";
    Call teacher_token clock0 (AssignTask tree_task) ].

Definition recycle_task : AssignedTask.t :=
  AssignedTask.mk 2 "Recycle" "Upload a report" 50 (end_of_day 19700) (utcnow clock0).

Definition pending_submission : TaskSubmission.t :=
  TaskSubmission.mk 2 2 1 "1_2_report.pdf" false 0 (utcnow clock0).

Module AnswerOut.
Record t : Type := mk { question_text : string; answer_text : string }.
End AnswerOut.

Module QuizSubmissionDetails.
Record t : Type := mk {
  id : Z;
  student_name : string;
  quiz_title : string;
  answers : list AnswerOut.t;
  total_points : Z
}.
End QuizSubmissionDetails.

(** [sub.answers]: the answers whose [submission_id] is the submission's id. *)
Definition answers_of_submission (st : Store) (sub : QuizSubmission.t)
  : list Answer.t :=
  filter (fun a => Answer.submission_id a = QuizSubmission.id sub) (answers st).

(** One answer of the details; [ans.question] is [None] when the question
    row does not exist. *)
Definition answer_out (st : Store) (ans : Answer.t) : result AnswerOut.t :=
  match get Question.id (Answer.question_id ans) (questions st) with
  | None => Raise AttributeError
  | Some question =>
      Ok (AnswerOut.mk (Question.question_text question) (Answer.answer_text ans))
  end.

Definition get_quiz_submission_details (submission_id : Z) (st : Store)
    (user : User.t) : result QuizSubmissionDetails.t :=
  if negb (is_teacher user) then Raise Forbidden else
  match get QuizSubmission.id submission_id (quiz_submissions st) with
  | None => Raise (HTTPException 404 "Not found")
  | Some sub =>
      answers_out ← mapM (answer_out st) (answers_of_submission st sub);
      match get User.id (QuizSubmission.user_id sub) (users st) with
      | None => Raise AttributeError
      | Some student =>
          match get Quiz.id (QuizSubmission.quiz_id sub) (quizzes st) with
          | None => Raise AttributeError
          | Some quiz =>
              match get Lesson.id (Quiz.lesson_id quiz) (lessons st) with
              | None => Raise AttributeError
              | Some lesson =>
                  Ok (QuizSubmissionDetails.mk (QuizSubmission.id sub)
                        (User.name student) (Lesson.title lesson) answers_out
                        (Z.of_nat (length (questions_of_quiz st quiz)) * 10))
              end
          end
      end
  end.

(** Every answer belongs to a quiz submission of the store. *)
Definition answers_ok (st : Store) : Prop :=
  forall a, a ∈ answers st ->
            Answer.submission_id a ∈ map QuizSubmission.id (quiz_submissions st).

(** The scenario up to the saved quiz: the student has not answered yet. *)
Definition quiz_ready_events : list event :=
  [ Startup clock0 "$2b$student" "$2b$teacher";
    Call teacher_token clock0
      (CreateLesson (LessonCreate.mk "Soil" "About soil" "https://example.org/v"));
    Call teacher_token clock0 (CreateOrUpdateQuiz 1 demo_quiz) ].

(** Answers to a question that does not exist. *)
Definition stray_answers : QuizSubmissionIn.t :=
  QuizSubmissionIn.mk [AnswerIn.mk 1 "a"; AnswerIn.mk 99 "z"].
(** * Properties *)

Section queries.
Context {A : Type} (key : A -> Z).

Lemma get_Some k rows r : get key k rows = Some r -> key r = k /\ r ∈ rows.
Proof.
  unfold get. intros H. apply find_some in H as [Hin Hk].
  apply bool_decide_eq_true in Hk. split; [done|]. by apply list_elem_of_In.
Qed.

Lemma get_app k rows rows' :
  get key k (rows ++ rows') =
  match get key k rows with Some r => Some r | None => get key k rows' end.
Proof.
  unfold get. induction rows as [|r rows IH]; simpl; [done|].
  by destruct (bool_decide (key r = k)).
Qed.

Lemma get_update_where k k' (f : A -> A) rows :
  (forall r, key (f r) = key r) ->
  get key k (update_where key k' f rows) =
  if bool_decide (k = k') then f <$> get key k rows else get key k rows.
Proof.
  intros Hf. unfold get, update_where.
  induction rows as [|r rows IH]; simpl.
  - by case_bool_decide.
  - destruct (bool_decide_reflect (key r = k')) as [Hr|Hr].
    + rewrite Hf. destruct (bool_decide_reflect (key r = k)) as [Hk|Hk].
      * rewrite bool_decide_eq_true_2 by congruence. done.
      * apply IH.
    + destruct (bool_decide_reflect (key r = k)) as [Hk|Hk].
      * rewrite bool_decide_eq_false_2 by congruence. done.
      * apply IH.
Qed.
End queries.


Lemma user_points_set_points st st' uid uid' P p :
  users st' = update_where User.id uid' (User.set_points p) (users st) ->
  user_points st uid = Some P ->
  user_points st' uid = Some (if bool_decide (uid = uid') then p else P).
Proof.
  intros Hst' HP. unfold user_points in *. rewrite Hst'.
  rewrite get_update_where by done.
  destruct (get User.id uid (users st)) as [u|]; [|done].
  simpl in *. case_bool_decide; simpl; congruence.
Qed.

(** ** Grading an ungraded submission *)



(** ** What each request writes *)

Ltac handler_cases H :=
  unfold update_profile, add_game, delete_game, submit_game_score, post_notice,
    create_lesson, create_or_update_quiz, submit_quiz, assign_task, submit_task,
    grade_task_submission, grade_quiz_submission in H;
  repeat case_match; simplify_eq/=.

Lemma dispatch_task_submissions clk r st user st' :
  dispatch clk r st user = Ok st' ->
  task_submissions st' = task_submissions st
  \/ (exists t f,
        r = SubmitTask t f /\
        find (fun s => bool_decide (TaskSubmission.user_id s = User.id user)
                       && bool_decide (TaskSubmission.task_id s = t))
             (task_submissions st) = None /\
        task_submissions st' =
          task_submissions st ++
            [TaskSubmission.mk (next_id (map TaskSubmission.id (task_submissions st)))
               t (User.id user)
               (stored_filename (User.id user) t (UploadFile.filename f))
               false 0 (utcnow clk)])
  \/ (exists sid g sub,
        r = GradeTaskSubmission sid g /\
        get TaskSubmission.id sid (task_submissions st) = Some sub /\
        TaskSubmission.approved sub = false /\
        task_submissions st' =
          update_where TaskSubmission.id sid
            (TaskSubmission.grade (TaskGradeIn.points g)) (task_submissions st)).
Proof.
  intros H. destruct r; simpl in H; handler_cases H; auto.
  - right. left. eauto.
  - right. right. do 3 eexists. split; [done|]. split; [done|]. split; [done|].
    match goal with Hg : get TaskSubmission.id _ _ = Some _ |- _ =>
      apply get_Some in Hg as [-> _] end. done.
Qed.

Lemma dispatch_quiz_submissions clk r st user st' :
  dispatch clk r st user = Ok st' ->
  quiz_submissions st' = quiz_submissions st
  \/ (exists q a,
        r = SubmitQuiz q a /\
        is_Some (get Quiz.id q (quizzes st)) /\
        find (fun s => bool_decide (QuizSubmission.user_id s = User.id user)
                       && bool_decide (QuizSubmission.quiz_id s = q))
             (quiz_submissions st) = None /\
        quiz_submissions st' =
          quiz_submissions st ++
            [QuizSubmission.mk (next_id (map QuizSubmission.id (quiz_submissions st)))
               q (User.id user) (utcnow clk) None false])
  \/ (exists sid g sub,
        r = GradeQuizSubmission sid g /\
        get QuizSubmission.id sid (quiz_submissions st) = Some sub /\
        QuizSubmission.is_graded sub = false /\
        quiz_submissions st' =
          update_where QuizSubmission.id sid
            (QuizSubmission.grade (QuizSubmissionScore.score g)) (quiz_submissions st)).
Proof.
  intros H. destruct r; simpl in H; handler_cases H; auto.
  - right. left. eauto 10.
  - right. right. do 3 eexists. split; [done|]. split; [done|]. split; [done|].
    match goal with Hg : get QuizSubmission.id _ _ = Some _ |- _ =>
      apply get_Some in Hg as [-> _] end. done.
Qed.

Lemma dispatch_users clk r st user st' :
  dispatch clk r st user = Ok st' ->
  users st' = users st
  \/ (exists d, r = UpdateProfile d /\
        users st' = update_where User.id (User.id user)
                      (User.set_name (UserProfileIn.name d)) (users st))
  \/ (exists p student, awarded r = Some p /\
        users st' = update_where User.id (User.id student)
                      (User.set_points (User.points student + p)) (users st) /\
        get User.id (User.id student) (users st) = Some student).
Proof.
  intros H. destruct r; simpl in H; handler_cases H; eauto.
  - right. right. do 2 eexists. split; [done|]. split; [done|].
    match goal with Hg : get User.id _ _ = Some _ |- _ =>
      pose proof (get_Some _ _ _ _ Hg) as [-> _]; exact Hg end.
  - right. right. do 2 eexists. split; [done|]. split; [done|].
    match goal with Hg : get User.id _ _ = Some _ |- _ =>
      pose proof (get_Some _ _ _ _ Hg) as [-> _]; exact Hg end.
Qed.

Lemma demo_data_submissions clk pw pw' st :
  task_submissions (demo_data clk pw pw' st) = task_submissions st /\
  quiz_submissions (demo_data clk pw pw' st) = quiz_submissions st.
Proof.
  unfold demo_data, demo_notice, demo_games, demo_users.
  by repeat case_match.
Qed.

Lemma demo_data_users clk pw pw' st :
  users st <> [] -> users (demo_data clk pw pw' st) = users st.
Proof.
  unfold demo_data, demo_notice, demo_games, demo_users.
  by repeat case_match.
Qed.

Lemma serve_Ok token clk r st st' :
  serve token clk r st = Ok st' ->
  exists user, get_current_user token st = Ok user /\ dispatch clk r st user = Ok st'.
Proof.
  unfold serve. destruct (get_current_user token st) as [user|e]; [|done].
  simpl. eauto.
Qed.

(** ** Grading is a one-way transition *)

Lemma grade_effect k clk sid p st user st' :
  dispatch clk (grade_request k sid p) st user = Ok st' ->
  exists owner,
    submission_owner k st sid = Some owner /\
    submission_graded k st sid = Some false /\
    submission_graded k st' sid = Some true /\
    forall uid P, user_points st uid = Some P ->
      user_points st' uid = Some (if bool_decide (uid = owner) then P + p else P).
Proof.
  intros H. destruct k; simpl in H; handler_cases H.
  - match goal with
    | Hs : get TaskSubmission.id _ _ = Some ?sub,
      Hu : get User.id _ _ = Some ?student |- _ =>
        exists (TaskSubmission.user_id sub);
        pose proof (get_Some _ _ _ _ Hs) as [Hsid _];
        pose proof (get_Some _ _ _ _ Hu) as [Huid _];
        rewrite Hs; simpl
    end.
    split; [done|]. split; [by f_equal|]. split.
    + rewrite get_update_where by done.
      rewrite bool_decide_eq_true_2 by done.
      match goal with Hs : get TaskSubmission.id _ _ = Some _ |- _ => by rewrite Hs end.
    + intros uid P HP.
      erewrite user_points_set_points; [|reflexivity|exact HP].
      rewrite Huid. case_bool_decide as Hc; [|done].
      subst uid. unfold user_points in HP.
      match goal with Hu : get User.id _ _ = Some _ |- _ => rewrite Hu in HP end.
      simpl in HP. congruence.
  - match goal with
    | Hs : get QuizSubmission.id _ _ = Some ?sub,
      Hu : get User.id _ _ = Some ?student |- _ =>
        exists (QuizSubmission.user_id sub);
        pose proof (get_Some _ _ _ _ Hs) as [Hsid _];
        pose proof (get_Some _ _ _ _ Hu) as [Huid _];
        rewrite Hs; simpl
    end.
    split; [done|]. split; [by f_equal|]. split.
    + rewrite get_update_where by done.
      rewrite bool_decide_eq_true_2 by done.
      match goal with Hs : get QuizSubmission.id _ _ = Some _ |- _ => by rewrite Hs end.
    + intros uid P HP.
      erewrite user_points_set_points; [|reflexivity|exact HP].
      rewrite Huid. case_bool_decide as Hc; [|done].
      subst uid. unfold user_points in HP.
      match goal with Hu : get User.id _ _ = Some _ |- _ => rewrite Hu in HP end.
      simpl in HP. congruence.
Qed.

Lemma grade_graded_raises k clk sid p st user :
  submission_graded k st sid = Some true ->
  dispatch clk (grade_request k sid p) st user
    = Raise (if is_teacher user then not_found_or_graded else Forbidden).
Proof.
  intros H. destruct k; simpl in *.
  - unfold grade_task_submission.
    destruct (is_teacher user); simpl; [|done].
    destruct (get TaskSubmission.id sid (task_submissions st)) as [sub|]; [|done].
    simpl in H. injection H as ->. done.
  - unfold grade_quiz_submission.
    destruct (is_teacher user); simpl; [|done].
    destruct (get QuizSubmission.id sid (quiz_submissions st)) as [sub|]; [|done].
    simpl in H. injection H as ->. done.
Qed.

Lemma submission_graded_step k ev st sid :
  submission_graded k st sid = Some true ->
  submission_graded k (step ev st) sid = Some true.
Proof.
  intros Hg. destruct ev as [clk pw pw'|token clk r]; simpl.
  - destruct (demo_data_submissions clk pw pw' st) as [Ht Hq].
    destruct k; simpl; by rewrite ?Ht, ?Hq.
  - destruct (serve token clk r st) as [st'|e] eqn:Hserve; [|done].
    apply serve_Ok in Hserve as (user & _ & Hd).
    destruct k; simpl in *.
    + destruct (dispatch_task_submissions _ _ _ _ _ Hd)
        as [->|[(t & f & _ & _ & ->)|(s & g & sub & _ & _ & _ & ->)]]; [done| |].
      * rewrite get_app.
        by destruct (get TaskSubmission.id sid (task_submissions st)).
      * rewrite get_update_where by done.
        destruct (get TaskSubmission.id sid (task_submissions st)) as [x|]; [|done].
        simpl in *. case_bool_decide; simpl; congruence.
    + destruct (dispatch_quiz_submissions _ _ _ _ _ Hd)
        as [->|[(q & a & _ & _ & _ & ->)|(s & g & sub & _ & _ & _ & ->)]]; [done| |].
      * rewrite get_app.
        by destruct (get QuizSubmission.id sid (quiz_submissions st)).
      * rewrite get_update_where by done.
        destruct (get QuizSubmission.id sid (quiz_submissions st)) as [x|]; [|done].
        simpl in *. case_bool_decide; simpl; congruence.
Qed.

Lemma run_snoc evs ev st : run (evs ++ [ev]) st = step ev (run evs st).
Proof. unfold run. by rewrite foldl_app. Qed.

Lemma submission_graded_run k evs st sid :
  submission_graded k st sid = Some true ->
  submission_graded k (run evs st) sid = Some true.
Proof.
  intros Hg. induction evs as [|ev evs IH] using rev_ind; [done|].
  rewrite run_snoc. by apply submission_graded_step.
Qed.

Lemma serve_graded_raises k token clk sid p st :
  submission_graded k st sid = Some true ->
  (forall user, get_current_user token st = Ok user -> is_teacher user = true ->
     serve token clk (grade_request k sid p) st = Raise not_found_or_graded) /\
  is_ok (serve token clk (grade_request k sid p) st) = false /\
  step (Call token clk (grade_request k sid p)) st = st.
Proof.
  intros Hg. unfold step, serve.
  destruct (get_current_user token st) as [user|e]; simpl.
  - rewrite (grade_graded_raises k clk sid p st user Hg).
    split; [|done]. intros ? [= <-] ->. done.
  - split; [|done]. intros ? [=].
Qed.

(** C2.  Once a submission is graded it stays graded whatever happens next,
    and every later grade call on it raises and commits nothing; a teacher's
    call gets [404 Not found or already graded.].  Hence when a grade of [p]
    succeeds and a second grade follows immediately, the second call raises
    and the owner's points have grown by exactly [p]. *)
Theorem regrade_is_rejected (k : kind) (st : Store) (sid : Z) :
  (forall evs token clk p',
      submission_graded k st sid = Some true ->
      submission_graded k (run evs st) sid = Some true /\
      (forall user, get_current_user token (run evs st) = Ok user ->
         is_teacher user = true ->
         serve token clk (grade_request k sid p') (run evs st)
           = Raise not_found_or_graded) /\
      is_ok (serve token clk (grade_request k sid p') (run evs st)) = false /\
      step (Call token clk (grade_request k sid p')) (run evs st) = run evs st) /\
  (forall token clk p token' clk' p' st1 owner P,
      serve token clk (grade_request k sid p) st = Ok st1 ->
      submission_owner k st sid = Some owner ->
      user_points st owner = Some P ->
      (forall user, get_current_user token' st1 = Ok user ->
         is_teacher user = true ->
         serve token' clk' (grade_request k sid p') st1 = Raise not_found_or_graded) /\
      is_ok (serve token' clk' (grade_request k sid p') st1) = false /\
      run [Call token clk (grade_request k sid p);
           Call token' clk' (grade_request k sid p')] st = st1 /\
      user_points st1 owner = Some (P + p)).
Proof.
  split.
  - intros evs token clk p' Hg.
    pose proof (submission_graded_run k evs st sid Hg) as Hg'.
    split; [done|]. by apply serve_graded_raises.
  - intros token clk p token' clk' p' st1 owner P Hserve Howner HP.
    destruct (serve_Ok _ _ _ _ _ Hserve) as (user & _ & Hd).
    destruct (grade_effect _ _ _ _ _ _ _ Hd) as (owner' & Howner' & _ & Hg1 & Hpts).
    assert (owner' = owner) as -> by congruence.
    destruct (serve_graded_raises k token' clk' sid p' st1 Hg1) as (Ht & Hno & Hstep).
    split; [done|]. split; [done|]. split.
    + unfold run. simpl. rewrite Hserve. exact Hstep.
    + rewrite (Hpts owner P HP). by rewrite bool_decide_eq_true_2.
Qed.

(** On the scenario store task submission 1 is graded: after one more game
    score the teacher's new grade of it is still refused; the pending quiz
    graded 20 and then 30 leaves the student with 100 + 20 points. *)
Lemma regrade_scenario :
  submission_graded Task scenario_store 1 = Some true /\
  serve teacher_token clock0 (grade_request Task 1 7) (run later_events scenario_store)
    = Raise not_found_or_graded /\
  step (Call teacher_token clock0 (grade_request Task 1 7))
       (run later_events scenario_store)
    = run later_events scenario_store /\
  is_ok (serve teacher_token clock0 (grade_request Quiz 1 30)
           (step (Call teacher_token clock0 (grade_request Quiz 1 20)) scenario_store))
    = false /\
  user_points
    (step (Call teacher_token clock0 (grade_request Quiz 1 20)) scenario_store) 1
    = Some (100 + 20).
Proof.
  assert (Hgraded : submission_graded Task scenario_store 1 = Some true)
    by (vm_compute; reflexivity).
  destruct (regrade_is_rejected Task scenario_store 1) as [Hlater _].
  destruct (Hlater later_events teacher_token clock0 7 Hgraded)
    as (_ & Hteacher & _ & Hsame).
  destruct (regrade_is_rejected Quiz scenario_store 1) as [_ Htwice].
  destruct (Htwice teacher_token clock0 20 teacher_token clock0 30
              (step (Call teacher_token clock0 (grade_request Quiz 1 20)) scenario_store)
              1 100)
    as (_ & Hno & _ & Hpoints);
    [vm_compute; reflexivity | vm_compute; reflexivity | vm_compute; reflexivity |].
  split; [exact Hgraded|]. split.
  - refine (Hteacher demo_teacher _ _); vm_compute; reflexivity.
  - split; [exact Hsame|]. split; [exact Hno|exact Hpoints].
Defined.

(** ** The submission ledger *)

Section filters.
Context {A : Type} (p : A -> bool).

Lemma find_None_filter rows : find p rows = None -> List.filter p rows = [].
Proof.
  induction rows as [|r rows IH]; simpl; [done|].
  destruct (p r); [done|]. exact IH.
Qed.


Lemma filter_update_where (key : A -> Z) k f rows :
  (forall r, p (f r) = p r) ->
  length (List.filter p (update_where key k f rows)) = length (List.filter p rows).
Proof.
  intros Hf. unfold update_where.
  induction rows as [|r rows IH]; simpl; [done|].
  case_bool_decide; rewrite ?Hf; destruct (p r); simpl; by rewrite IH.
Qed.
End filters.

Lemma dispatch_quizzes clk r st user st' :
  dispatch clk r st user = Ok st' ->
  quizzes st' = quizzes st \/ exists quiz, quizzes st' = quizzes st ++ [quiz].
Proof. intros H. destruct r; simpl in H; handler_cases H; eauto. Qed.

Lemma demo_data_quizzes clk pw pw' st :
  quizzes (demo_data clk pw pw' st) = quizzes st.
Proof.
  unfold demo_data, demo_notice, demo_games, demo_users. by repeat case_match.
Qed.

Lemma ledger_ok_empty : ledger_ok empty_store.
Proof.
  split; try (intros; simpl; lia).
  intros s Hs. by apply elem_of_nil in Hs.
Qed.

Lemma ledger_ok_dispatch clk r st user st' :
  ledger_ok st -> dispatch clk r st user = Ok st' -> ledger_ok st'.
Proof.
  intros [Ht Hq Hz] Hd. split.
  - intros u i. specialize (Ht u i). unfold task_submissions_of in *.
    destruct (dispatch_task_submissions _ _ _ _ _ Hd)
      as [->|[(t & f & _ & Hnone & ->)|(s & g & sub & _ & _ & _ & ->)]]; [done| |].
    + rewrite List.filter_app, length_app. simpl.
      destruct (bool_decide_reflect (User.id user = u)) as [<-|]; simpl; [|lia].
      destruct (bool_decide_reflect (t = i)) as [<-|]; simpl; [|lia].
      apply find_None_filter in Hnone. rewrite Hnone. simpl. lia.
    + by rewrite filter_update_where.
  - intros u i. specialize (Hq u i). unfold quiz_submissions_of in *.
    destruct (dispatch_quiz_submissions _ _ _ _ _ Hd)
      as [->|[(q & a & _ & _ & Hnone & ->)|(s & g & sub & _ & _ & _ & ->)]]; [done| |].
    + rewrite List.filter_app, length_app. simpl.
      destruct (bool_decide_reflect (User.id user = u)) as [<-|]; simpl; [|lia].
      destruct (bool_decide_reflect (q = i)) as [<-|]; simpl; [|lia].
      apply find_None_filter in Hnone. rewrite Hnone. simpl. lia.
    + by rewrite filter_update_where.
  - assert (Hmono : forall k, is_Some (get Quiz.id k (quizzes st)) ->
                              is_Some (get Quiz.id k (quizzes st'))).
    { intros k [x Hx].
      destruct (dispatch_quizzes _ _ _ _ _ Hd) as [->|[quiz ->]]; [by eexists|].
      rewrite get_app, Hx. by eexists. }
    intros s Hs.
    destruct (dispatch_quiz_submissions _ _ _ _ _ Hd)
      as [Heq|[(q & a & _ & Hquiz & _ & Heq)|(sid & g & sub & _ & _ & _ & Heq)]];
      rewrite Heq in Hs.
    + by apply Hmono, Hz.
    + apply elem_of_app in Hs as [Hs|Hs]; [by apply Hmono, Hz|].
      apply list_elem_of_singleton in Hs as ->. simpl. by apply Hmono.
    + unfold update_where in Hs. apply list_elem_of_fmap in Hs as (s0 & -> & Hs0).
      apply Hmono. case_bool_decide; simpl; by apply Hz.
Qed.

Lemma ledger_ok_step ev st : ledger_ok st -> ledger_ok (step ev st).
Proof.
  intros Hok. destruct ev as [clk pw pw'|token clk r]; simpl.
  - destruct Hok as [Ht Hq Hz].
    destruct (demo_data_submissions clk pw pw' st) as [Hts Hqs].
    split; unfold task_submissions_of, quiz_submissions_of;
      rewrite ?Hts, ?Hqs, ?demo_data_quizzes; done.
  - destruct (serve token clk r st) as [st'|e] eqn:Hserve; [|done].
    apply serve_Ok in Hserve as (user & _ & Hd).
    by eapply ledger_ok_dispatch.
Qed.

Lemma ledger_ok_run evs st : ledger_ok st -> ledger_ok (run evs st).
Proof.
  intros Hok. induction evs as [|ev evs IH] using rev_ind; [done|].
  rewrite run_snoc. by apply ledger_ok_step.
Qed.

Lemma step_raise token clk r st user e :
  get_current_user token st = Ok user ->
  dispatch clk r st user = Raise e ->
  step (Call token clk r) st = st.
Proof. intros Hu Hd. unfold step, serve. rewrite Hu. simpl. by rewrite Hd. Qed.



(** ** Submitting against an item that does not exist *)

(** C4.  On the demo store, which has neither quizzes nor tasks, submitting
    quiz 999 raises [404 Quiz not found] and leaves the store as it was, while
    submitting a file for task 999 succeeds: the file is written, a
    [TaskSubmission] row for task 999 is committed, and from then on the
    teacher's list of ungraded submissions raises on the missing task. *)
Theorem submit_task_accepts_missing_task :
  assigned_tasks demo_store = [] /\
  submit_quiz clock0 999 demo_answers demo_store demo_student
    = Raise (HTTPException 404 "Quiz not found") /\
  step (Call student_token clock0 (SubmitQuiz 999 demo_answers)) demo_store
    = demo_store /\
  submit_task clock0 999 report_file demo_store demo_student
    = Ok (orphan_store, "Submission successful") /\
  task_submissions orphan_store
    = [TaskSubmission.mk 1 999 1 "1_999_report.pdf" false 0 (utcnow clock0)] /\
  media orphan_store !! "1_999_report.pdf" = Some (UploadFile.file report_file) /\
  get_task_submissions orphan_store demo_teacher = Raise AttributeError.
Proof. repeat split; vm_compute; reflexivity. Qed.

(** ** The student report *)

Lemma or_zero_sql_sum col : or_zero (sql_sum col) = py_sum (omap (fun v => v) col).
Proof.
  unfold or_zero, sql_sum, py_sum.
  destruct (omap _ col) as [|v vs]; [done|].
  case_bool_decide as H; [by rewrite H|done].
Qed.

Lemma omap_map_Some {A} (f : A -> Z) (l : list A) :
  omap (fun v => v) (map (fun s => Some (f s)) l) = map f l.
Proof. induction l as [|x l IH]; [done|]. simpl. by f_equal. Qed.

Lemma py_sum_cons x l : py_sum (x :: l) = x + py_sum l.
Proof. reflexivity. Qed.

Lemma task_points_graded (l : list TaskSubmission.t) :
  Forall (fun s => TaskSubmission.approved s = false ->
                   TaskSubmission.points_awarded s = 0) l ->
  py_sum (map TaskSubmission.points_awarded l)
  = py_sum (map TaskSubmission.points_awarded
              (filter (fun s => TaskSubmission.approved s = true) l)).
Proof.
  induction 1 as [|s l Hs _ IH]; [done|].
  rewrite filter_cons, map_cons, py_sum_cons, IH.
  destruct (TaskSubmission.approved s) eqn:Ha.
  - rewrite decide_True by done. by rewrite map_cons, py_sum_cons.
  - rewrite decide_False by done. by rewrite Hs.
Qed.

Lemma scores_cons (s : QuizSubmission.t) l :
  py_sum (omap (fun v => v) (map QuizSubmission.score (s :: l)))
  = default 0 (QuizSubmission.score s)
    + py_sum (omap (fun v => v) (map QuizSubmission.score l)).
Proof. rewrite map_cons. by destruct (QuizSubmission.score s). Qed.

Lemma quiz_points_graded (l : list QuizSubmission.t) :
  Forall (fun s => QuizSubmission.is_graded s = false ->
                   QuizSubmission.score s = None) l ->
  py_sum (omap (fun v => v) (map QuizSubmission.score l))
  = py_sum (map (fun s => default 0 (QuizSubmission.score s))
              (filter (fun s => QuizSubmission.is_graded s = true) l)).
Proof.
  induction 1 as [|s l Hs _ IH]; [done|].
  rewrite filter_cons, scores_cons, IH.
  destruct (QuizSubmission.is_graded s) eqn:Ha.
  - rewrite decide_True by done. by rewrite map_cons, py_sum_cons.
  - rewrite decide_False by done. by rewrite Hs.
Qed.

Lemma grades_ok_empty : grades_ok empty_store.
Proof. split; constructor. Qed.

Lemma grades_ok_step ev st : grades_ok st -> grades_ok (step ev st).
Proof.
  intros [Ht Hq]. destruct ev as [clk pw pw'|token clk r]; simpl.
  - destruct (demo_data_submissions clk pw pw' st) as [Hts Hqs].
    split; by rewrite ?Hts, ?Hqs.
  - destruct (serve token clk r st) as [st'|e] eqn:Hserve; [|done].
    apply serve_Ok in Hserve as (user & _ & Hd). split.
    + destruct (dispatch_task_submissions _ _ _ _ _ Hd)
        as [->|[(t & f & _ & _ & ->)|(s & g & sub & _ & _ & _ & ->)]]; [done| |].
      * apply Forall_app. split; [done|]. by constructor.
      * unfold update_where. apply Forall_fmap. eapply Forall_impl; [exact Ht|].
        intros x Hx. simpl. case_bool_decide; [done|exact Hx].
    + destruct (dispatch_quiz_submissions _ _ _ _ _ Hd)
        as [->|[(q & a & _ & _ & _ & ->)|(s & g & sub & _ & _ & _ & ->)]]; [done| |].
      * apply Forall_app. split; [done|]. by constructor.
      * unfold update_where. apply Forall_fmap. eapply Forall_impl; [exact Hq|].
        intros x Hx. simpl. case_bool_decide; [done|exact Hx].
Qed.

Lemma grades_ok_run evs st : grades_ok st -> grades_ok (run evs st).
Proof.
  intros Hok. induction evs as [|ev evs IH] using rev_ind; [done|].
  rewrite run_snoc. by apply grades_ok_step.
Qed.

Lemma Forall_filter_keep {A} (P Q : A -> Prop) `{!forall x, Decision (Q x)} l :
  Forall P l -> Forall P (filter Q l).
Proof.
  intros Hall. apply Forall_forall. intros x Hx.
  apply list_elem_of_filter in Hx as [_ Hx].
  rewrite Forall_forall in Hall. by apply Hall.
Qed.

Lemma bucket_fold_lookup games l (acc : gmap string (list Z)) k :
  foldl (bucket_score games) acc l !! k =
  match skill_scores games l k with
  | [] => acc !! k
  | s :: ss => Some (default [] (acc !! k) ++ s :: ss)
  end.
Proof.
  revert acc. induction l as [|x l IH]; intros acc; [done|].
  simpl. rewrite IH. unfold skill_scores, bucket_score. simpl.
  destruct (get Game.id (GameScore.game_id x) games) as [game|]; [|done].
  fold (skill_scores games l k).
  destruct (bool_decide_reflect (Game.skill game = k)) as [->|Hne].
  - rewrite lookup_insert_eq. simpl.
    destruct (skill_scores games l k); [done|].
    by rewrite <-app_assoc.
  - by rewrite lookup_insert_ne.
Qed.

Lemma bucket_skills_lookup games l k :
  bucket_skills games l !! k =
  match skill_scores games l k with
  | [] => None
  | s :: ss => Some (s :: ss)
  end.
Proof.
  unfold bucket_skills. rewrite bucket_fold_lookup, lookup_empty.
  by destruct (skill_scores games l k).
Qed.

Lemma average_skills_bucket games l :
  average_skills (bucket_skills games l) = Ok (mean <$> bucket_skills games l).
Proof.
  unfold average_skills. rewrite decide_True; [done|].
  intros k scores Hk. rewrite bucket_skills_lookup in Hk.
  destruct (skill_scores games l k); [done|]. by injection Hk as <-.
Qed.


Lemma report_authorized user student_id :
  is_teacher user = true \/ User.id user = student_id ->
  negb (is_teacher user) && negb (bool_decide (User.id user = student_id)) = false.
Proof.
  intros [->| ->]; [done|].
  rewrite bool_decide_eq_true_2 by done. by destruct (is_teacher user).
Qed.





(** ** Who changes a user's points *)





(** ** The leaderboard *)

Global Instance points_desc_trans : Transitive points_desc.
Proof. unfold points_desc. intros u v w. lia. Qed.

Global Instance points_desc_total : Total points_desc.
Proof. unfold points_desc. intros u v. lia. Qed.

(** C8.  The leaderboard lists students of the store only, in descending
    order of points, at most ten of them: as many as there are students when
    these are fewer.  It is the front of a descending arrangement of all the
    students, so no student left out has more points than a listed one; with
    eleven students it lists ten and leaves out one with the fewest points. *)
Theorem leaderboard_top_ten (st : Store) :
  Forall (fun u => User.role u = "student" /\ u ∈ users st) (leaderboard st) /\
  StronglySorted points_desc (leaderboard st) /\
  length (leaderboard st) = Nat.min 10 (length (students st)) /\
  (exists rest,
      leaderboard st ++ rest ≡ₚ students st /\
      forall u v, u ∈ leaderboard st -> v ∈ rest -> User.points v <= User.points u) /\
  (length (students st) = 11%nat ->
   exists last,
     length (leaderboard st) = 10%nat /\
     leaderboard st ++ [last] ≡ₚ students st /\
     forall u, u ∈ leaderboard st -> User.points last <= User.points u).
Proof.
  unfold leaderboard. fold (students st).
  set (sorted := merge_sort points_desc (students st)).
  assert (Hperm : sorted ≡ₚ students st) by apply merge_sort_Permutation.
  assert (Hsorted : StronglySorted points_desc (take 10 sorted ++ drop 10 sorted)).
  { rewrite take_drop. apply StronglySorted_merge_sort; apply _. }
  assert (Hlen : length (take 10 sorted) = Nat.min 10 (length (students st))).
  { by rewrite length_take, Hperm. }
  assert (Hcross : forall u v, u ∈ take 10 sorted -> v ∈ drop 10 sorted ->
                               User.points v <= User.points u).
  { intros u v Hu Hv.
    apply (StronglySorted_app_1_elem_of _ _ _ _ _ Hsorted Hu Hv). }
  split; [|split; [|split; [|split]]].
  - apply Forall_take. apply Forall_forall. intros u Hu.
    rewrite Hperm in Hu. unfold students in Hu.
    by apply list_elem_of_filter in Hu.
  - by apply StronglySorted_app_1_l in Hsorted.
  - exact Hlen.
  - exists (drop 10 sorted). split; [by rewrite take_drop|exact Hcross].
  - intros H11.
    assert (Hdrop : length (drop 10 sorted) = 1%nat).
    { rewrite length_drop, Hperm, H11. done. }
    destruct (drop 10 sorted) as [|last [|]] eqn:Hd; try done.
    exists last. split; [rewrite Hlen, H11; done|]. split.
    + by rewrite <-Hd, take_drop.
    + intros u Hu. apply Hcross; [done|]. apply list_elem_of_singleton. done.
Qed.

(** A class of eleven students: the leaderboard has the ten with the most
    points, and pupil 4, with 0 points, is the one left out. *)
Lemma leaderboard_class :
  length (students class_store) = 11%nat /\
  map User.points (leaderboard class_store) = [200; 120; 90; 75; 75; 60; 45; 30; 10; 5] /\
  exists last,
    length (leaderboard class_store) = 10%nat /\
    leaderboard class_store ++ [last] ≡ₚ students class_store /\
    forall u, u ∈ leaderboard class_store -> User.points last <= User.points u.
Proof.
  destruct (leaderboard_top_ten class_store) as (_ & _ & _ & _ & H11).
  split; [vm_compute; reflexivity|]. split; [vm_compute; reflexivity|].
  apply H11. vm_compute. reflexivity.
Defined.

(** ** Stored file names *)

Lemma pretty_N_go_no_underscore x s :
  occurs "_" s = false -> occurs "_" (pretty_N_go x s) = false.
Proof.
  revert s. induction (N.lt_wf_0 x) as [x _ IH]; intros s Hs.
  assert (x = 0 \/ 0 < x)%N as [->|Hpos] by lia.
  - by rewrite pretty_N_go_0.
  - rewrite pretty_N_go_step by done. apply IH.
    + by apply N.div_lt.
    + simpl. rewrite Hs. unfold pretty_N_char. by repeat case_match.
Qed.

Lemma pretty_N_no_underscore (x : N) : occurs "_" (pretty x) = false.
Proof.
  unfold pretty, pretty_N. case_decide; [done|].
  by apply pretty_N_go_no_underscore.
Qed.

Lemma pretty_Z_no_underscore (x : Z) : occurs "_" (pretty x) = false.
Proof.
  destruct x as [|p|p]; [done| |].
  - apply pretty_N_no_underscore.
  - change (pretty (Z.neg p)) with ("-" +:+ pretty (N.pos p)).
    simpl. apply pretty_N_no_underscore.
Qed.

Lemma split_at_underscore a a' r r' :
  occurs "_" a = false -> occurs "_" a' = false ->
  a +:+ "_" +:+ r = a' +:+ "_" +:+ r' -> a = a' /\ r = r'.
Proof.
  revert a'. induction a as [|c a IH]; intros [|c' a'] Ha Ha' Heq; simpl in *.
  - by simplify_eq.
  - first [by simplify_eq | simplify_eq; by rewrite bool_decide_eq_true_2 in Ha'].
  - first [by simplify_eq | simplify_eq; by rewrite bool_decide_eq_true_2 in Ha].
  - apply orb_false_elim in Ha as [_ Ha]. apply orb_false_elim in Ha' as [_ Ha'].
    injection Heq as -> Heq.
    destruct (IH a' Ha Ha' Heq) as [-> ->]. done.
Qed.

Lemma stored_filename_inj u t n u' t' n' :
  stored_filename u t n = stored_filename u' t' n' -> u = u' /\ t = t' /\ n = n'.
Proof.
  unfold stored_filename. intros Heq.
  apply split_at_underscore in Heq as [Hu Heq]; try apply pretty_Z_no_underscore.
  apply split_at_underscore in Heq as [Ht Hn]; try apply pretty_Z_no_underscore.
  split; [by apply (inj pretty)|]. split; [by apply (inj pretty)|done].
Qed.

(** C9.  The name under which [submit_task] stores an upload, and which it
    records in the submission row, is [stored_filename] of the caller's id,
    the task id and the upload's own name; two such names are equal only if
    the user ids, the task ids and the original names are all equal, so
    uploads of distinct (user, task) pairs never share a name. *)
Theorem stored_filename_separates_pairs :
  (forall clk t file st user st' msg,
      submit_task clk t file st user = Ok (st', msg) ->
      let name := stored_filename (User.id user) t (UploadFile.filename file) in
      media st' = <[name := UploadFile.file file]> (media st) /\
      exists sid,
        task_submissions st' =
        task_submissions st
          ++ [TaskSubmission.mk sid t (User.id user) name false 0 (utcnow clk)]) /\
  (forall u t n u' t' n',
      (u, t) <> (u', t') -> stored_filename u t n <> stored_filename u' t' n') /\
  (forall u t n u' t' n',
      stored_filename u t n = stored_filename u' t' n' -> u = u' /\ t = t' /\ n = n').
Proof.
  split; [|split].
  - intros clk t file st user st' msg H. unfold submit_task in H.
    destruct (find _ (task_submissions st)); [done|].
    injection H as <- _. simpl. split; [done|]. by eexists.
  - intros u t n u' t' n' Hne Heq.
    apply stored_filename_inj in Heq as (-> & -> & _). done.
  - apply stored_filename_inj.
Qed.

(** The student's second upload in the scenario is stored as
    [1_2_report.pdf]; the same file name handed in by user 12 for task 3 and
    by user 1 for task 23 gives two different stored names. *)
Lemma stored_filename_scenario :
  stored_filename 1 2 "report.pdf" = "1_2_report.pdf" /\
  media orphan_store !! "1_999_report.pdf" = Some (UploadFile.file report_file) /\
  stored_filename 12 3 "x_1.txt" <> stored_filename 1 23 "x_1.txt" /\
  (1, 2) = (1, 2) /\ "report.pdf" = "report.pdf".
Proof.
  destruct stored_filename_separates_pairs as (Hsubmit & Hne & Hinj).
  destruct (Hsubmit clock0 999 report_file demo_store demo_student orphan_store
              "Submission successful") as [Hmedia _]; [vm_compute; reflexivity|].
  split; [vm_compute; reflexivity|]. split.
  - rewrite Hmedia. vm_compute. reflexivity.
  - split; [apply Hne; discriminate|].
    destruct (Hinj 1 2 "report.pdf" 1 2 "report.pdf") as (_ & Ht & Hn);
      [reflexivity|].
    split; [by f_equal|exact Hn].
Defined.

(** ** The notice board *)

(** C10.  A teacher's post succeeds whatever the board holds, and after a
    successful post the [notices] table holds exactly one row, the new
    notice with id 1: every earlier notice has been deleted.  No other table
    and no file changes. *)
Theorem post_notice_leaves_one_notice (clk : Clock) (message : string)
    (st : Store) (user : User.t) :
  (is_teacher user = true -> is_ok (post_notice clk message st user) = true) /\
  (forall st' msg,
      post_notice clk message st user = Ok (st', msg) ->
      notices st' = [Notice.mk 1 message (utcnow clk)] /\
      st' = set_notices [Notice.mk 1 message (utcnow clk)] st).
Proof.
  unfold post_notice. split.
  - intros ->. done.
  - intros st' msg H. destruct (is_teacher user); simpl in H; [|done].
    injection H as <- _. done.
Qed.

(** On the demo store, whose board holds the welcome notice, the teacher
    posts a new notice: the board then holds the new notice alone. *)
Lemma post_notice_demo :
  length (notices demo_store) = 1%nat /\
  is_ok (post_notice clock0 "Exam on Friday" demo_store demo_teacher) = true /\
  exists st',
    post_notice clock0 "Exam on Friday" demo_store demo_teacher
      = Ok (st', "Notice posted") /\
    notices st' = [Notice.mk 1 "Exam on Friday" (utcnow clock0)].
Proof.
  destruct (post_notice_leaves_one_notice clock0 "Exam on Friday" demo_store
              demo_teacher) as [Hok Hone].
  assert (Hpost : post_notice clock0 "Exam on Friday" demo_store demo_teacher
                  = Ok (set_notices [Notice.mk 1 "Exam on Friday" (utcnow clock0)]
                          demo_store, "Notice posted"))
    by (vm_compute; reflexivity).
  split; [vm_compute; reflexivity|]. split; [apply Hok; reflexivity|].
  eexists. split; [exact Hpost|]. apply (Hone _ _ Hpost).
Defined.

(** * Further properties of the handlers *)

(** ** Role checks *)

(** X1.  Adding or deleting a game, posting a notice, creating a lesson,
    saving a quiz, assigning a task and both grading calls are refused with
    [403 Forbidden] for every caller who is not a teacher, before anything
    else is looked at, and the store stays as it was; the other four write
    requests never answer [Forbidden]. *)
Theorem only_teachers_may_manage (clk : Clock) (r : request) (st : Store)
    (user : User.t) :
  (is_teacher user = false -> teacher_only r = true ->
   dispatch clk r st user = Raise Forbidden /\
   forall token, get_current_user token st = Ok user ->
                 step (Call token clk r) st = st) /\
  (teacher_only r = false -> dispatch clk r st user <> Raise Forbidden).
Proof.
  split.
  - intros Hrole Only.
    assert (Hraise : dispatch clk r st user = Raise Forbidden).
    { destruct r; try discriminate Only; simpl;
        unfold add_game, delete_game, post_notice, create_lesson,
          create_or_update_quiz, assign_task, grade_task_submission,
          grade_quiz_submission; by rewrite Hrole. }
    split; [exact Hraise|]. intros token Huser. by eapply step_raise.
  - intros Only H. destruct r; try discriminate Only; simpl in H;
      handler_cases H.
Qed.

(** The demo student may not grade the pending task of the scenario, and the
    refused call leaves the scenario store as it was. *)
Lemma student_cannot_grade :
  dispatch clock0 (GradeTaskSubmission 2 (TaskGradeIn.mk 50)) scenario_store
           scenario_student = Raise Forbidden /\
  step (Call student_token clock0 (GradeTaskSubmission 2 (TaskGradeIn.mk 50)))
       scenario_store = scenario_store /\
  dispatch clock0 (SubmitTask 1 report_file) scenario_store scenario_student
    <> Raise Forbidden.
Proof.
  destruct (only_teachers_may_manage clock0
              (GradeTaskSubmission 2 (TaskGradeIn.mk 50)) scenario_store
              scenario_student) as [Hguard _].
  destruct (Hguard eq_refl eq_refl) as [Hraise Hsame].
  destruct (only_teachers_may_manage clock0 (SubmitTask 1 report_file)
              scenario_store scenario_student) as [_ Hfree].
  split; [exact Hraise|]. split.
  - apply Hsame. vm_compute. reflexivity.
  - apply Hfree. reflexivity.
Defined.

(** ** Start-up *)

(** X2.  Seeding is idempotent: loading the module again, at any later time
    and with any password hashes, leaves a seeded store as it is.  The demo
    users, games and notice are created only for tables that are empty. *)
Theorem demo_data_idempotent (clk clk' : Clock) (pw pw' qw qw' : string)
    (st : Store) :
  demo_data clk' qw qw' (demo_data clk pw pw' st) = demo_data clk pw pw' st.
Proof.
  unfold demo_data, demo_notice, demo_games, demo_users.
  destruct st as [us ps ls qs qns qss ans ts tss gs gss ns md].
  destruct us, gs, ns; reflexivity.
Qed.

(** ** Graded rows are final *)

Lemma graded_row_step k ev st sid :
  submission_graded k st sid = Some true ->
  match k with
  | Task => get TaskSubmission.id sid (task_submissions (step ev st))
            = get TaskSubmission.id sid (task_submissions st)
  | Quiz => get QuizSubmission.id sid (quiz_submissions (step ev st))
            = get QuizSubmission.id sid (quiz_submissions st)
  end.
Proof.
  intros Hg. destruct ev as [clk pw pw'|token clk r]; simpl.
  - destruct (demo_data_submissions clk pw pw' st) as [Ht Hq].
    destruct k; by rewrite ?Ht, ?Hq.
  - destruct (serve token clk r st) as [st'|e] eqn:Hserve; [|by destruct k].
    apply serve_Ok in Hserve as (user & _ & Hd).
    destruct k; simpl in Hg.
    + destruct (dispatch_task_submissions _ _ _ _ _ Hd)
        as [->|[(t & f & _ & _ & ->)|(s & g & sub & _ & Hs & Hun & ->)]]; [done| |].
      * rewrite get_app.
        by destruct (get TaskSubmission.id sid (task_submissions st)).
      * rewrite get_update_where by done.
        case_bool_decide as Hc; [|done]. subst s.
        rewrite Hs in Hg. simpl in Hg. congruence.
    + destruct (dispatch_quiz_submissions _ _ _ _ _ Hd)
        as [->|[(q & a & _ & _ & _ & ->)|(s & g & sub & _ & Hs & Hun & ->)]]; [done| |].
      * rewrite get_app.
        by destruct (get QuizSubmission.id sid (quiz_submissions st)).
      * rewrite get_update_where by done.
        case_bool_decide as Hc; [|done]. subst s.
        rewrite Hs in Hg. simpl in Hg. congruence.
Qed.

(** X3.  A graded submission row is final: whatever events follow, the row
    found under its id is the same row, with the same owner, the same score
    and the graded mark. *)
Theorem graded_row_is_final (evs : list event) (st : Store) (sid : Z) :
  (forall sub,
      get TaskSubmission.id sid (task_submissions st) = Some sub ->
      TaskSubmission.approved sub = true ->
      get TaskSubmission.id sid (task_submissions (run evs st)) = Some sub) /\
  (forall sub,
      get QuizSubmission.id sid (quiz_submissions st) = Some sub ->
      QuizSubmission.is_graded sub = true ->
      get QuizSubmission.id sid (quiz_submissions (run evs st)) = Some sub).
Proof.
  split.
  - intros sub Hsub Hg.
    induction evs as [|ev evs IH] using rev_ind; [done|].
    rewrite run_snoc.
    rewrite (graded_row_step Task ev (run evs st) sid); [done|].
    simpl. by rewrite IH, <-Hg.
  - intros sub Hsub Hg.
    induction evs as [|ev evs IH] using rev_ind; [done|].
    rewrite run_snoc.
    rewrite (graded_row_step Quiz ev (run evs st) sid); [done|].
    simpl. by rewrite IH, <-Hg.
Qed.

(** The task graded 100 and the quiz graded 20 keep their rows through
    further grading attempts and other calls. *)
Lemma graded_row_scenario :
  get TaskSubmission.id 1 (task_submissions (run regrade_events graded_store))
    = Some (TaskSubmission.mk 1 1 1 "1_1_report.pdf" true 100 (utcnow clock0)) /\
  get QuizSubmission.id 1 (quiz_submissions (run regrade_events graded_store))
    = Some (QuizSubmission.mk 1 1 1 (utcnow clock0) (Some 20) true).
Proof.
  destruct (graded_row_is_final regrade_events graded_store 1) as [Htask Hquiz].
  split.
  - apply Htask; [vm_compute; reflexivity|reflexivity].
  - apply Hquiz; [vm_compute; reflexivity|reflexivity].
Defined.

(** ** Primary keys *)

Lemma next_id_above ids x : x ∈ ids -> x < next_id ids.
Proof.
  unfold next_id. induction ids as [|y ids IH]; intros Hx.
  - by apply elem_of_nil in Hx.
  - apply elem_of_cons in Hx as [->|Hx]; simpl; [lia|].
    specialize (IH Hx). lia.
Qed.


Section keys.
Context {A : Type} (key : A -> Z).

Lemma keys_insert rows r :
  key r = next_id (map key rows) ->
  NoDup (map key rows) -> NoDup (map key (rows ++ [r])).
Proof.
  intros Hr Hnd. rewrite map_app. simpl. apply NoDup_app. split; [done|]. split.
  - intros x Hx Hx'. apply list_elem_of_singleton in Hx'. subst x.
    apply next_id_above in Hx. lia.
  - apply NoDup_singleton.
Qed.

Lemma keys_update_where k f rows :
  (forall r, key r = k -> key (f r) = key r) ->
  map key (update_where key k f rows) = map key rows.
Proof.
  intros Hf. unfold update_where. rewrite map_map. apply map_ext.
  intros r. case_bool_decide; [by apply Hf|done].
Qed.

Lemma keys_filter (P : A -> Prop) `{!forall r, Decision (P r)} rows :
  NoDup (map key rows) -> NoDup (map key (filter P rows)).
Proof.
  intros Hnd. eapply sublist_NoDup; [exact Hnd|].
  apply (fmap_sublist key), sublist_filter.
Qed.
End keys.

Lemma keys_append_questions quiz_id qs rows :
  NoDup (map Question.id rows) ->
  NoDup (map Question.id (append_questions quiz_id qs rows)).
Proof.
  unfold append_questions. revert rows.
  induction qs as [|q qs IH]; intros rows Hnd; [done|].
  simpl. apply IH. by apply keys_insert.
Qed.

Lemma keys_append_answers submission_id ans rows :
  NoDup (map Answer.id rows) ->
  NoDup (map Answer.id (append_answers submission_id ans rows)).
Proof.
  unfold append_answers. revert rows.
  induction ans as [|a ans IH]; intros rows Hnd; [done|].
  simpl. apply IH. by apply keys_insert.
Qed.

Lemma keys_ok_empty : keys_ok empty_store.
Proof. split; apply NoDup_nil_2. Qed.

Lemma keys_ok_dispatch clk r st user st' :
  keys_ok st -> dispatch clk r st user = Ok st' -> keys_ok st'.
Proof.
  intros Hok H. destruct r; simpl in H; handler_cases H; destruct Hok;
    split; simpl;
    rewrite ?keys_update_where by (simpl; congruence);
    try done;
    try (apply keys_insert; done);
    try (apply keys_filter; done);
    try (apply keys_append_questions; try apply keys_filter;
         try apply keys_insert; done);
    try (apply keys_append_answers; done);
    try (apply NoDup_singleton).
Qed.

Lemma keys_ok_demo_data clk pw pw' st :
  keys_ok st -> keys_ok (demo_data clk pw pw' st).
Proof.
  intros Hok. destruct Hok.
  destruct st as [us ps ls qs qns qss ans ts tss gs gss ns md]; simpl in *.
  unfold demo_data, demo_notice, demo_games, demo_users.
  destruct us, gs, ns; split; simpl; try done;
    try (by apply keys_insert);
    try apply NoDup_singleton;
    vm_compute;
    repeat (apply NoDup_cons; split;
            [rewrite ?not_elem_of_cons; repeat split; (done || apply not_elem_of_nil)|]);
    apply NoDup_nil_2.
Qed.

Lemma keys_ok_run evs st : keys_ok st -> keys_ok (run evs st).
Proof.
  intros Hok. induction evs as [|ev evs IH] using rev_ind; [done|].
  rewrite run_snoc. destruct ev as [clk pw pw'|token clk r]; simpl.
  - by apply keys_ok_demo_data.
  - destruct (serve token clk r (run evs st)) as [st'|e] eqn:Hserve; [|done].
    apply serve_Ok in Hserve as (user & _ & Hd). by eapply keys_ok_dispatch.
Qed.

Lemma primary_keys_hold (evs : list event) : keys_ok (run evs empty_store).
Proof. apply keys_ok_run, keys_ok_empty. Qed.

(** X4.  Primary keys: in every store the service can reach from a new
    database, no table holds two rows with the same id. *)
Theorem primary_keys_are_unique (evs : list event) :
  keys_ok (run evs empty_store).
Proof. apply primary_keys_hold. Qed.

(** ** Points and graded submissions agree *)

Section keyed_rows.
Context {A : Type} (key : A -> Z).


Lemma get_None k rows : k ∉ map key rows -> get key k rows = None.
Proof.
  intros Hk. destruct (get key k rows) as [r|] eqn:Hr; [|done].
  apply get_Some in Hr as [<- Hr]. destruct Hk.
  apply list_elem_of_fmap. by exists r.
Qed.

Lemma update_where_absent k f rows :
  k ∉ map key rows -> update_where key k f rows = rows.
Proof.
  intros Hk. unfold update_where. induction rows as [|r rows IH]; [done|].
  simpl in *. apply not_elem_of_cons in Hk as [Hr Hk].
  rewrite bool_decide_eq_false_2 by done. by rewrite IH.
Qed.
End keyed_rows.

Lemma get_current_user_elem token st user :
  get_current_user token st = Ok user -> user ∈ users st.
Proof.
  unfold get_current_user. destruct token as [email|]; [|done].
  destruct (find _ (users st)) as [u|] eqn:Hu; [|done].
  intros [= <-]. apply find_some in Hu as [Hin _]. by apply list_elem_of_In.
Qed.

Lemma dispatch_user_ids clk r st user st' :
  dispatch clk r st user = Ok st' ->
  map User.id (users st') = map User.id (users st).
Proof.
  intros Hd.
  destruct (dispatch_users _ _ _ _ _ Hd)
    as [->|[(d & _ & ->)|(p & student & _ & -> & _)]]; [done| |];
    by rewrite keys_update_where.
Qed.

Lemma task_sum_cons u r l :
  task_sum u (r :: l) =
  (if bool_decide (TaskSubmission.user_id r = u) && TaskSubmission.approved r
   then TaskSubmission.points_awarded r else 0) + task_sum u l.
Proof.
  unfold task_sum. rewrite filter_cons.
  destruct (decide (TaskSubmission.user_id r = u)) as [Hu|Hu].
  - rewrite bool_decide_eq_true_2 by done. rewrite filter_cons.
    destruct (decide (TaskSubmission.approved r = true)) as [Ha|Ha].
    + rewrite Ha. by rewrite map_cons, py_sum_cons.
    + apply not_true_is_false in Ha. rewrite Ha. done.
  - rewrite bool_decide_eq_false_2 by done. done.
Qed.

Lemma quiz_sum_cons u r l :
  quiz_sum u (r :: l) =
  (if bool_decide (QuizSubmission.user_id r = u) && QuizSubmission.is_graded r
   then default 0 (QuizSubmission.score r) else 0) + quiz_sum u l.
Proof.
  unfold quiz_sum. rewrite filter_cons.
  destruct (decide (QuizSubmission.user_id r = u)) as [Hu|Hu].
  - rewrite bool_decide_eq_true_2 by done. rewrite filter_cons.
    destruct (decide (QuizSubmission.is_graded r = true)) as [Ha|Ha].
    + rewrite Ha. by rewrite map_cons, py_sum_cons.
    + apply not_true_is_false in Ha. rewrite Ha. done.
  - rewrite bool_decide_eq_false_2 by done. done.
Qed.

Lemma task_sum_snoc u l r :
  TaskSubmission.approved r = false -> task_sum u (l ++ [r]) = task_sum u l.
Proof.
  intros Hr. induction l as [|x l IH]; simpl.
  - rewrite task_sum_cons, Hr, andb_false_r. done.
  - by rewrite !task_sum_cons, IH.
Qed.

Lemma quiz_sum_snoc u l r :
  QuizSubmission.is_graded r = false -> quiz_sum u (l ++ [r]) = quiz_sum u l.
Proof.
  intros Hr. induction l as [|x l IH]; simpl.
  - rewrite quiz_sum_cons, Hr, andb_false_r. done.
  - by rewrite !quiz_sum_cons, IH.
Qed.

Lemma task_sum_grade u sid p sub l :
  NoDup (map TaskSubmission.id l) ->
  get TaskSubmission.id sid l = Some sub ->
  TaskSubmission.approved sub = false ->
  task_sum u (update_where TaskSubmission.id sid (TaskSubmission.grade p) l)
  = task_sum u l + (if bool_decide (TaskSubmission.user_id sub = u) then p else 0).
Proof.
  intros Hnd Hget Hun. induction l as [|r l IH]; [done|].
  simpl in Hnd. apply NoDup_cons in Hnd as [Hr Hnd].
  unfold get in Hget. simpl in *.
  destruct (bool_decide_reflect (TaskSubmission.id r = sid)) as [Hid|Hid].
  - injection Hget as ->. subst sid.
    rewrite (update_where_absent TaskSubmission.id) by done.
    rewrite !task_sum_cons. simpl. rewrite Hun, andb_false_r, andb_true_r. lia.
  - rewrite !task_sum_cons, (IH Hnd Hget). lia.
Qed.

Lemma quiz_sum_grade u sid p sub l :
  NoDup (map QuizSubmission.id l) ->
  get QuizSubmission.id sid l = Some sub ->
  QuizSubmission.is_graded sub = false ->
  quiz_sum u (update_where QuizSubmission.id sid (QuizSubmission.grade p) l)
  = quiz_sum u l + (if bool_decide (QuizSubmission.user_id sub = u) then p else 0).
Proof.
  intros Hnd Hget Hun. induction l as [|r l IH]; [done|].
  simpl in Hnd. apply NoDup_cons in Hnd as [Hr Hnd].
  unfold get in Hget. simpl in *.
  destruct (bool_decide_reflect (QuizSubmission.id r = sid)) as [Hid|Hid].
  - injection Hget as ->. subst sid.
    rewrite (update_where_absent QuizSubmission.id) by done.
    rewrite !quiz_sum_cons. simpl. rewrite Hun, andb_false_r, andb_true_r. lia.
  - rewrite !quiz_sum_cons, (IH Hnd Hget). lia.
Qed.

Lemma earned_unfold st uid :
  earned st uid = task_sum uid (task_submissions st) + quiz_sum uid (quiz_submissions st).
Proof. reflexivity. Qed.

Lemma user_points_update_name st uid uid' n :
  User.points <$> get User.id uid (update_where User.id uid' (User.set_name n) (users st))
  = user_points st uid.
Proof.
  unfold user_points. rewrite get_update_where by done.
  destruct (get User.id uid (users st)); [|by case_bool_decide].
  by case_bool_decide.
Qed.

(** The balance of a store whose users and graded sums are those of [st]. *)
Lemma balance_same st st' :
  (forall uid, user_points st' uid = user_points st uid) ->
  (forall uid, task_sum uid (task_submissions st') = task_sum uid (task_submissions st)) ->
  (forall uid, quiz_sum uid (quiz_submissions st') = quiz_sum uid (quiz_submissions st)) ->
  (forall uid P, user_points st uid = Some P -> P = earned st uid) ->
  forall uid P, user_points st' uid = Some P -> P = earned st' uid.
Proof.
  intros Hu Ht Hq Hb uid P HP. rewrite earned_unfold, Ht, Hq, <-earned_unfold.
  apply Hb. by rewrite <-Hu.
Qed.

Lemma balance_grade_task st sid p sub student :
  NoDup (map TaskSubmission.id (task_submissions st)) ->
  get TaskSubmission.id sid (task_submissions st) = Some sub ->
  TaskSubmission.approved sub = false ->
  get User.id (TaskSubmission.user_id sub) (users st) = Some student ->
  (forall uid P, user_points st uid = Some P -> P = earned st uid) ->
  let st' :=
    set_users
      (update_where User.id (User.id student)
         (User.set_points (User.points student + p)) (users st))
      (set_task_submissions
         (update_where TaskSubmission.id sid (TaskSubmission.grade p)
            (task_submissions st)) st) in
  forall uid P, user_points st' uid = Some P -> P = earned st' uid.
Proof.
  intros Hnd Hsub Hun Hstudent Hb st' uid P HP.
  pose proof (get_Some _ _ _ _ Hstudent) as [Hid _].
  rewrite earned_unfold. unfold st'. simpl.
  rewrite (task_sum_grade uid sid p sub) by done.
  unfold user_points, st' in HP. simpl in HP.
  rewrite get_update_where in HP by done. rewrite Hid in HP.
  destruct (bool_decide_reflect (uid = TaskSubmission.user_id sub)) as [->|Hne].
  - rewrite Hstudent in HP. simpl in HP. injection HP as <-.
    rewrite bool_decide_eq_true_2 by done.
    rewrite (Hb (TaskSubmission.user_id sub) (User.points student)).
    + rewrite earned_unfold. lia.
    + unfold user_points. by rewrite Hstudent.
  - rewrite bool_decide_eq_false_2 by done.
    rewrite (Hb uid P HP), earned_unfold. lia.
Qed.

Lemma balance_grade_quiz st sid p sub student :
  NoDup (map QuizSubmission.id (quiz_submissions st)) ->
  get QuizSubmission.id sid (quiz_submissions st) = Some sub ->
  QuizSubmission.is_graded sub = false ->
  get User.id (QuizSubmission.user_id sub) (users st) = Some student ->
  (forall uid P, user_points st uid = Some P -> P = earned st uid) ->
  let st' :=
    set_users
      (update_where User.id (User.id student)
         (User.set_points (User.points student + p)) (users st))
      (set_quiz_submissions
         (update_where QuizSubmission.id sid (QuizSubmission.grade p)
            (quiz_submissions st)) st) in
  forall uid P, user_points st' uid = Some P -> P = earned st' uid.
Proof.
  intros Hnd Hsub Hun Hstudent Hb st' uid P HP.
  pose proof (get_Some _ _ _ _ Hstudent) as [Hid _].
  rewrite earned_unfold. unfold st'. simpl.
  rewrite (quiz_sum_grade uid sid p sub) by done.
  unfold user_points, st' in HP. simpl in HP.
  rewrite get_update_where in HP by done. rewrite Hid in HP.
  destruct (bool_decide_reflect (uid = QuizSubmission.user_id sub)) as [->|Hne].
  - rewrite Hstudent in HP. simpl in HP. injection HP as <-.
    rewrite bool_decide_eq_true_2 by done.
    rewrite (Hb (QuizSubmission.user_id sub) (User.points student)).
    + rewrite earned_unfold. lia.
    + unfold user_points. by rewrite Hstudent.
  - rewrite bool_decide_eq_false_2 by done.
    rewrite (Hb uid P HP), earned_unfold. lia.
Qed.

Lemma accounts_ok_empty : accounts_ok empty_store.
Proof.
  split.
  - intros s Hs. by apply elem_of_nil in Hs.
  - intros s Hs. by apply elem_of_nil in Hs.
  - intros uid P HP. done.
Qed.

Lemma accounts_ok_demo_data clk pw pw' st :
  accounts_ok st -> accounts_ok (demo_data clk pw pw' st).
Proof.
  intros [Ht Hq Hb].
  destruct (demo_data_submissions clk pw pw' st) as [Hts Hqs].
  destruct (decide (users st = [])) as [Hus|Hus].
  - assert (Hnt : task_submissions st = []).
    { destruct (task_submissions st) as [|s l]; [done|].
      specialize (Ht s (list_elem_of_here _ _)). rewrite Hus in Ht.
      by apply elem_of_nil in Ht. }
    assert (Hnq : quiz_submissions st = []).
    { destruct (quiz_submissions st) as [|s l]; [done|].
      specialize (Hq s (list_elem_of_here _ _)). rewrite Hus in Hq.
      by apply elem_of_nil in Hq. }
    split.
    + intros s Hs. rewrite Hts, Hnt in Hs. by apply elem_of_nil in Hs.
    + intros s Hs. rewrite Hqs, Hnq in Hs. by apply elem_of_nil in Hs.
    + intros uid P HP. rewrite earned_unfold, Hts, Hqs, Hnt, Hnq.
      unfold user_points, demo_data, demo_notice, demo_games, demo_users in HP.
      rewrite Hus in HP.
      destruct (games _), (notices _); simpl in HP;
        unfold get in HP; simpl in HP;
        repeat (case_bool_decide; simpl in HP); by simplify_eq.
  - assert (Hsame : users (demo_data clk pw pw' st) = users st)
      by (by apply demo_data_users).
    split.
    + intros s Hs. rewrite Hsame. apply Ht. by rewrite <-Hts.
    + intros s Hs. rewrite Hsame. apply Hq. by rewrite <-Hqs.
    + apply (balance_same st); try done.
      * intros uid. unfold user_points. by rewrite Hsame.
      * intros uid. by rewrite Hts.
      * intros uid. by rewrite Hqs.
Qed.

Lemma accounts_ok_dispatch clk r st user st' :
  keys_ok st -> user ∈ users st -> accounts_ok st ->
  dispatch clk r st user = Ok st' -> accounts_ok st'.
Proof.
  intros Hkeys Huser [Ht Hq Hb] Hd.
  assert (Hme : User.id user ∈ map User.id (users st)).
  { apply list_elem_of_fmap. by exists user. }
  pose proof (dispatch_user_ids _ _ _ _ _ Hd) as Hids.
  split.
  - intros s Hs. rewrite Hids.
    destruct (dispatch_task_submissions _ _ _ _ _ Hd)
      as [Heq|[(t & f & _ & _ & Heq)|(sid & g & sub & _ & _ & _ & Heq)]];
      rewrite Heq in Hs.
    + by apply Ht.
    + apply elem_of_app in Hs as [Hs|Hs]; [by apply Ht|].
      by apply list_elem_of_singleton in Hs as ->.
    + unfold update_where in Hs. apply list_elem_of_fmap in Hs as (s0 & -> & Hs0).
      case_bool_decide; simpl; by apply Ht.
  - intros s Hs. rewrite Hids.
    destruct (dispatch_quiz_submissions _ _ _ _ _ Hd)
      as [Heq|[(q & a & _ & _ & _ & Heq)|(sid & g & sub & _ & _ & _ & Heq)]];
      rewrite Heq in Hs.
    + by apply Hq.
    + apply elem_of_app in Hs as [Hs|Hs]; [by apply Hq|].
      by apply list_elem_of_singleton in Hs as ->.
    + unfold update_where in Hs. apply list_elem_of_fmap in Hs as (s0 & -> & Hs0).
      case_bool_decide; simpl; by apply Hq.
  - destruct Hkeys.
    destruct r; simpl in Hd; handler_cases Hd;
      try (apply (balance_same st); [| | |done]; intros; simpl;
           rewrite ?task_sum_snoc, ?quiz_sum_snoc by done;
           first [reflexivity | apply user_points_update_name]).
    + match goal with
      | Hs : get TaskSubmission.id _ _ = Some ?sub |- _ =>
          pose proof (get_Some _ _ _ _ Hs) as [Hsid _]; rewrite Hsid
      end.
      by eapply balance_grade_task.
    + match goal with
      | Hs : get QuizSubmission.id _ _ = Some ?sub |- _ =>
          pose proof (get_Some _ _ _ _ Hs) as [Hsid _]; rewrite Hsid
      end.
      by eapply balance_grade_quiz.
Qed.

Lemma accounts_ok_run evs :
  keys_ok (run evs empty_store) /\ accounts_ok (run evs empty_store).
Proof.
  split; [apply primary_keys_hold|].
  induction evs as [|ev evs IH] using rev_ind; [apply accounts_ok_empty|].
  rewrite run_snoc. destruct ev as [clk pw pw'|token clk r]; simpl.
  - by apply accounts_ok_demo_data.
  - destruct (serve token clk r (run evs empty_store)) as [st'|e] eqn:Hserve; [|done].
    apply serve_Ok in Hserve as (user & Huser & Hd).
    eapply accounts_ok_dispatch; [apply primary_keys_hold| |exact IH|exact Hd].
    by eapply get_current_user_elem.
Qed.

Lemma report_Ok student_id st user r :
  get_student_report student_id st user = Ok r ->
  get User.id student_id (users st) = Some (StudentReportOut.user r) /\
  StudentReportOut.academic_score r
  = py_sum (map TaskSubmission.points_awarded
              (filter (fun s => TaskSubmission.user_id s = student_id)
                      (task_submissions st)))
    + py_sum (omap (fun v => v)
                (map QuizSubmission.score
                   (filter (fun s => QuizSubmission.user_id s = student_id)
                           (quiz_submissions st)))).
Proof.
  unfold get_student_report. intros H.
  destruct (negb (is_teacher user) && _); [done|].
  destruct (get User.id student_id (users st)) as [student|]; [|done].
  destruct (negb _); [done|].
  rewrite average_skills_bucket in H. simpl in H. injection H as <-. simpl.
  split; [done|]. by rewrite !or_zero_sql_sum, omap_map_Some.
Qed.

(** X5.  Points and reports agree: in every store the service can reach from
    a new database, a user's points are the sum of the scores of that user's
    graded task and quiz submissions, and the [academic_score] of a report is
    the [points] of the student it is about. *)
Theorem points_match_graded_scores (evs : list event) :
  let st := run evs empty_store in
  (forall uid P, user_points st uid = Some P ->
     P = graded_task_points st uid + graded_quiz_points st uid) /\
  (forall student_id user r,
     get_student_report student_id st user = Ok r ->
     StudentReportOut.academic_score r = User.points (StudentReportOut.user r)).
Proof.
  intros st. destruct (accounts_ok_run evs) as [_ [_ _ Hb]]. fold st in Hb.
  split; [exact Hb|].
  intros student_id user r Hr.
  pose proof (grades_ok_run evs empty_store grades_ok_empty) as [Ht Hq].
  fold st in Ht, Hq.
  apply report_Ok in Hr as [Hstudent ->].
  rewrite (Hb student_id (User.points (StudentReportOut.user r)))
    by (unfold user_points; by rewrite Hstudent).
  unfold earned, graded_task_points, graded_quiz_points.
  rewrite <-task_points_graded by (by apply Forall_filter_keep).
  rewrite <-quiz_points_graded by (by apply Forall_filter_keep).
  done.
Qed.

(** After the scenario and the quiz graded 20, the student has 120 points
    and the report says the same. *)
Lemma points_match_scenario :
  user_points (run graded_events empty_store) 1 = Some 120 /\
  120 = graded_task_points (run graded_events empty_store) 1
        + graded_quiz_points (run graded_events empty_store) 1 /\
  exists r,
    get_student_report 1 (run graded_events empty_store) demo_teacher = Ok r /\
    StudentReportOut.academic_score r = User.points (StudentReportOut.user r).
Proof.
  destruct (points_match_graded_scores graded_events) as [Hpoints Hreport].
  assert (HP : user_points (run graded_events empty_store) 1 = Some 120)
    by (vm_compute; reflexivity).
  split; [exact HP|]. split; [exact (Hpoints 1 120 HP)|].
  destruct (get_student_report 1 (run graded_events empty_store) demo_teacher)
    as [r|e] eqn:Hr.
  - exists r. split; [reflexivity|]. exact (Hreport 1 demo_teacher r Hr).
  - exfalso. vm_compute in Hr. discriminate Hr.
Defined.



(** ** The notice board *)

Lemma dispatch_notices clk r st user st' :
  dispatch clk r st user = Ok st' ->
  notices st' = notices st \/ exists n, notices st' = [n].
Proof. intros H. destruct r; simpl in H; handler_cases H; eauto. Qed.

Lemma notices_step ev st :
  (length (notices st) <= 1)%nat -> (length (notices (step ev st)) <= 1)%nat.
Proof.
  intros Hlen. destruct ev as [clk pw pw'|token clk r]; simpl.
  - unfold demo_data, demo_notice, demo_games, demo_users.
    destruct st as [us ps ls qs qns qss ans ts tss gs gss ns md]; simpl in *.
    destruct us, gs, ns; simpl in *; lia.
  - destruct (serve token clk r st) as [st'|e] eqn:Hserve; [|done].
    apply serve_Ok in Hserve as (user & _ & Hd).
    destruct (dispatch_notices _ _ _ _ _ Hd) as [->|[n ->]]; simpl; lia.
Qed.

(** X7.  The notice board shows the last post: in every store the service
    can reach from a new database there is at most one notice; right after a
    successful post, [get_latest_notice] returns the posted message with the
    time of the post; and on an empty board it returns [No notices yet.] with
    the current time. *)
Theorem latest_notice_is_last_post :
  (forall evs, (length (notices (run evs empty_store)) <= 1)%nat) /\
  (forall clk clk' message st user st' msg,
      post_notice clk message st user = Ok (st', msg) ->
      get_latest_notice clk' st' = NoticeOut.mk message (utcnow clk)) /\
  (forall clk st,
      notices st = [] ->
      get_latest_notice clk st = NoticeOut.mk "No notices yet." (utcnow clk)).
Proof.
  split; [|split].
  - intros evs. induction evs as [|ev evs IH] using rev_ind; [simpl; lia|].
    rewrite run_snoc. by apply notices_step.
  - intros clk clk' message st user st' msg H. unfold post_notice in H.
    destruct (negb (is_teacher user)); [done|]. injection H as <- _. done.
  - intros clk st Hnone. unfold get_latest_notice. by rewrite Hnone.
Qed.

(** The teacher posts on the demo store and the latest notice is that post;
    a new database has an empty board. *)
Lemma latest_notice_demo :
  get_latest_notice clock0
    (step (Call teacher_token clock0 (PostNotice "Exam on Friday")) demo_store)
    = NoticeOut.mk "Exam on Friday" (utcnow clock0) /\
  get_latest_notice clock0 empty_store
    = NoticeOut.mk "No notices yet." (utcnow clock0).
Proof.
  destruct latest_notice_is_last_post as (_ & Hpost & Hempty).
  split.
  - apply (Hpost clock0 clock0 "Exam on Friday" demo_store demo_teacher _
             "Notice posted").
    vm_compute. reflexivity.
  - apply Hempty. reflexivity.
Defined.

(** ** Assigning tasks *)

Lemma get_insert_fresh {A} (key : A -> Z) rows r :
  key r = next_id (map key rows) ->
  get key (key r) (rows ++ [r]) = Some r /\
  forall k x, get key k rows = Some x -> get key k (rows ++ [r]) = Some x.
Proof.
  intros Hr. split.
  - rewrite get_app, (get_None key).
    + unfold get. simpl. by rewrite bool_decide_eq_true_2.
    + intros Hin. apply next_id_above in Hin. lia.
  - intros k x Hx. by rewrite get_app, Hx.
Qed.



(** ** Saving and reading a quiz *)

Lemma find_app_first {A} (p : A -> bool) l l' :
  find p (l ++ l') = match find p l with Some x => Some x | None => find p l' end.
Proof.
  induction l as [|x l IH]; simpl; [done|]. by destruct (p x).
Qed.

Lemma append_questions_elem qid qs rows q :
  q ∈ append_questions qid qs rows -> Question.quiz_id q = qid \/ q ∈ rows.
Proof.
  unfold append_questions. revert rows.
  induction qs as [|x qs IH]; intros rows Hq; simpl in Hq; [by right|].
  apply IH in Hq as [Hq|Hq]; [by left|].
  apply elem_of_app in Hq as [Hq|Hq]; [by right|].
  apply list_elem_of_singleton in Hq as ->. by left.
Qed.

Lemma append_questions_texts qid qs rows :
  map Question.question_text
      (filter (fun q => Question.quiz_id q = qid) (append_questions qid qs rows))
  = map Question.question_text (filter (fun q => Question.quiz_id q = qid) rows)
    ++ map QuestionCreate.question_text qs.
Proof.
  unfold append_questions. revert rows.
  induction qs as [|x qs IH]; intros rows; simpl.
  - by rewrite app_nil_r.
  - rewrite IH, filter_app, map_app, <-app_assoc. f_equal.
    rewrite filter_cons, decide_True by done. done.
Qed.

Lemma questions_ok_dispatch clk r st user st' :
  questions_ok st -> dispatch clk r st user = Ok st' -> questions_ok st'.
Proof.
  unfold questions_ok. intros Hok Hd.
  destruct r; simpl in Hd; handler_cases Hd; simpl; try done.
  - intros q Hq. apply append_questions_elem in Hq as [Hq|Hq].
    + rewrite Hq.
      match goal with
      | Hf : find _ (quizzes st) = Some ?quiz |- _ =>
          apply find_some in Hf as [Hin _];
          apply list_elem_of_fmap; exists quiz; split; [done|];
          by apply list_elem_of_In
      end.
    + apply list_elem_of_filter in Hq as [_ Hq]. by apply Hok.
  - intros q Hq. rewrite map_app. apply elem_of_app.
    apply append_questions_elem in Hq as [Hq|Hq].
    + right. rewrite Hq. simpl. apply list_elem_of_here.
    + left. by apply Hok.
Qed.

Lemma questions_ok_run evs : questions_ok (run evs empty_store).
Proof.
  induction evs as [|ev evs IH] using rev_ind.
  - intros q Hq. by apply elem_of_nil in Hq.
  - rewrite run_snoc. destruct ev as [clk pw pw'|token clk r]; simpl.
    + unfold questions_ok, demo_data, demo_notice, demo_games, demo_users in *.
      destruct (run evs empty_store)
        as [us ps ls qs qns qss ans ts tss gs gss ns md]; simpl in *.
      destruct us, gs, ns; simpl; exact IH.
    + destruct (serve token clk r (run evs empty_store)) as [st'|e] eqn:Hserve;
        [|done].
      apply serve_Ok in Hserve as (user & _ & Hd).
      by eapply questions_ok_dispatch.
Qed.

Lemma filter_quiz_kept qid (rows : list Question.t) :
  filter (fun q => Question.quiz_id q = qid)
         (filter (fun q => Question.quiz_id q <> qid) rows) = [].
Proof.
  induction rows as [|q rows IH]; [done|].
  rewrite filter_cons. destruct (decide (Question.quiz_id q <> qid)) as [Hq|Hq].
  - rewrite filter_cons, decide_False by done. exact IH.
  - exact IH.
Qed.

Lemma filter_quiz_fresh st :
  questions_ok st ->
  filter (fun q => Question.quiz_id q = next_id (map Quiz.id (quizzes st)))
         (questions st) = [].
Proof.
  intros Hok. unfold questions_ok in Hok.
  induction (questions st) as [|q rows IH]; [done|].
  rewrite filter_cons, decide_False.
  - apply IH. intros x Hx. apply Hok. by apply list_elem_of_further.
  - intros Heq. specialize (Hok q (list_elem_of_here _ _)).
    rewrite Heq in Hok. apply next_id_above in Hok. lia.
Qed.

(** X9.  What a teacher saves as the quiz of a lesson is what the lesson
    then serves: in every store the service can reach from a new database,
    after a successful [create_or_update_quiz] the lesson's quiz consists of
    exactly the submitted question texts, in order, whether the quiz was new
    or replaced an older one, and [total_points] is ten per question. *)
Theorem saved_quiz_is_served (evs : list event) (lesson_id : Z)
    (quiz_in : QuizCreate.t) (user reader : User.t) (st' : Store) (msg : string) :
  create_or_update_quiz lesson_id quiz_in (run evs empty_store) user = Ok (st', msg) ->
  exists resp quiz_out,
    get_lesson_and_quiz lesson_id st' reader = Ok resp /\
    LessonQuizResponse.quiz resp = Some quiz_out /\
    map QuestionOut.question_text (QuizOut.questions quiz_out)
      = map QuestionCreate.question_text (QuizCreate.questions quiz_in) /\
    QuizOut.total_points quiz_out
      = Z.of_nat (length (QuizCreate.questions quiz_in)) * 10.
Proof.
  intros H. pose proof (questions_ok_run evs) as Hok.
  set (st := run evs empty_store) in *.
  unfold create_or_update_quiz in H.
  destruct (negb (is_teacher user)); [done|].
  destruct (get Lesson.id lesson_id (lessons st)) as [lesson|] eqn:Hlesson; [|done].
  pose proof (get_Some _ _ _ _ Hlesson) as [Hlid _].
  destruct (find _ (quizzes st)) as [quiz|] eqn:Hquiz.
  - injection H as <- _.
    unfold get_lesson_and_quiz, quiz_of_lesson, questions_of_quiz. simpl.
    rewrite Hlesson, Hquiz.
    eexists _, _. split; [reflexivity|]. split; [reflexivity|]. simpl.
    assert (Htexts :
      map Question.question_text
        (filter (fun q => Question.quiz_id q = Quiz.id quiz)
           (append_questions (Quiz.id quiz) (QuizCreate.questions quiz_in)
              (filter (fun q => Question.quiz_id q <> Quiz.id quiz) (questions st))))
      = map QuestionCreate.question_text (QuizCreate.questions quiz_in)).
    { by rewrite append_questions_texts, filter_quiz_kept. }
    split.
    + rewrite map_map. exact Htexts.
    + rewrite <-(length_map Question.question_text), Htexts, length_map. done.
  - injection H as <- _.
    unfold get_lesson_and_quiz, quiz_of_lesson, questions_of_quiz. simpl.
    rewrite Hlesson, find_app_first, Hquiz. simpl.
    rewrite bool_decide_eq_true_2 by done.
    eexists _, _. split; [reflexivity|]. split; [reflexivity|]. simpl.
    assert (Htexts :
      map Question.question_text
        (filter (fun q => Question.quiz_id q = next_id (map Quiz.id (quizzes st)))
           (append_questions (next_id (map Quiz.id (quizzes st)))
              (QuizCreate.questions quiz_in) (questions st)))
      = map QuestionCreate.question_text (QuizCreate.questions quiz_in)).
    { by rewrite append_questions_texts, filter_quiz_fresh. }
    split.
    + rewrite map_map. exact Htexts.
    + rewrite <-(length_map Question.question_text), Htexts, length_map. done.
Qed.

(** The teacher replaces the two-question quiz of lesson 1 by three
    questions; the lesson then serves these three, for 30 points. *)
Lemma saved_quiz_scenario :
  exists resp quiz_out,
    get_lesson_and_quiz 1
      (step (Call teacher_token clock0 (CreateOrUpdateQuiz 1 revised_quiz))
            (run scenario_events empty_store)) scenario_student = Ok resp /\
    LessonQuizResponse.quiz resp = Some quiz_out /\
    map QuestionOut.question_text (QuizOut.questions quiz_out)
      = ["What lives in soil?"; "What is humus?"; "Name a decomposer."] /\
    QuizOut.total_points quiz_out = 30.
Proof.
  destruct (saved_quiz_is_served scenario_events 1 revised_quiz demo_teacher
              scenario_student
              (step (Call teacher_token clock0 (CreateOrUpdateQuiz 1 revised_quiz))
                    (run scenario_events empty_store))
              "Quiz saved successfully")
    as (resp & quiz_out & Hresp & Hquiz & Htexts & Htotal);
    [vm_compute; reflexivity|].
  exists resp, quiz_out.
  split; [exact Hresp|]. split; [exact Hquiz|]. split; [exact Htexts|exact Htotal].
Defined.

(** ** Who may read a report *)

(** X10.  A caller who is neither a teacher nor the student asked about gets
    [403 Forbidden] whether or not that student exists; an allowed caller
    gets [404 Student not found] when the id is unknown or belongs to a user
    who is not a student, so a teacher has no report of their own. *)
Theorem report_access (student_id : Z) (st : Store) (user : User.t) :
  (is_teacher user = false -> User.id user <> student_id ->
   get_student_report student_id st user = Raise Forbidden) /\
  (is_teacher user = true \/ User.id user = student_id ->
   (get User.id student_id (users st) = None \/
    exists u, get User.id student_id (users st) = Some u /\ User.role u <> "student") ->
   get_student_report student_id st user
     = Raise (HTTPException 404 "Student not found")).
Proof.
  unfold get_student_report. split.
  - intros -> Hother. by rewrite bool_decide_eq_false_2.
  - intros Hauth Hmissing. rewrite (report_authorized _ _ Hauth).
    destruct Hmissing as [->|(u & -> & Hrole)]; [done|].
    by rewrite bool_decide_eq_false_2.
Qed.

(** In the scenario the teacher may not read a report of user 2, the teacher,
    nor of user 7, who does not exist, and the student may not read either. *)
Lemma report_access_scenario :
  get_student_report 2 scenario_store scenario_student = Raise Forbidden /\
  get_student_report 7 scenario_store demo_teacher
    = Raise (HTTPException 404 "Student not found") /\
  get_student_report 2 scenario_store demo_teacher
    = Raise (HTTPException 404 "Student not found").
Proof.
  split; [|split].
  - apply (report_access 2 scenario_store scenario_student); [reflexivity|discriminate].
  - apply (report_access 7 scenario_store demo_teacher); [by left|].
    left. vm_compute. reflexivity.
  - apply (report_access 2 scenario_store demo_teacher); [by left|].
    right. exists demo_teacher. split; [vm_compute; reflexivity|discriminate].
Defined.

(** ** The student's task list *)

Section matches.
Context {A : Type} (p : A -> bool).

Lemma find_update_where (key : A -> Z) k f rows :
  (forall r, p (f r) = p r) ->
  find p (update_where key k f rows)
  = (fun r => if bool_decide (key r = k) then f r else r) <$> find p rows.
Proof.
  intros Hf. unfold update_where. induction rows as [|r rows IH]; [done|].
  simpl. case_bool_decide; rewrite ?Hf; destruct (p r); simpl; try done.
  by rewrite bool_decide_eq_true_2.
  by rewrite bool_decide_eq_false_2.
Qed.

Lemma unique_match rows a b :
  (length (List.filter p rows) <= 1)%nat ->
  find p rows = Some a -> b ∈ rows -> p b = true -> a = b.
Proof.
  induction rows as [|x rows IH]; intros Hlen Hfind Hb Hpb; [done|].
  simpl in *. destruct (p x) eqn:Hpx.
  - injection Hfind as <-.
    apply elem_of_cons in Hb as [->|Hb]; [done|].
    assert (Hin : In b (List.filter p rows)).
    { apply filter_In. split; [by apply list_elem_of_In|done]. }
    simpl in Hlen. destruct (List.filter p rows); [done|simpl in Hlen; lia].
  - apply elem_of_cons in Hb as [->|Hb]; [congruence|]. by apply IH.
Qed.
End matches.

(** X11.  The student's task list follows the ledger: right after a
    successful submit the entry of that task shows the submission as not
    approved with 0 points, and, in every store the service can reach from a
    new database, right after a successful grade the owner's entry of the
    submission's task shows it approved with the points the grader gave. *)
Theorem task_status_follows (evs : list event) :
  let st := run evs empty_store in
  (forall clk t file user st' msg task,
      submit_task clk t file st user = Ok (st', msg) ->
      AssignedTask.id task = t ->
      AssignedTaskForStudent.submission_status (task_for_student st' user task)
        = Some (TaskSubmissionStatus.mk false 0)) /\
  (forall sid g grader st' msg sub student task,
      grade_task_submission sid g st grader = Ok (st', msg) ->
      get TaskSubmission.id sid (task_submissions st) = Some sub ->
      get User.id (TaskSubmission.user_id sub) (users st) = Some student ->
      AssignedTask.id task = TaskSubmission.task_id sub ->
      AssignedTaskForStudent.submission_status (task_for_student st' student task)
        = Some (TaskSubmissionStatus.mk true (TaskGradeIn.points g))).
Proof.
  intros st. split.
  - intros clk t file user st' msg task H <-. unfold submit_task in H.
    destruct (find _ (task_submissions st)) as [s|] eqn:Hfind; [done|].
    injection H as <- _. unfold task_for_student. simpl.
    rewrite find_app_first, Hfind. simpl.
    by rewrite !bool_decide_eq_true_2.
  - intros sid g grader st' msg sub student task H Hsub Hstudent Htask.
    pose proof (ledger_ok_run evs empty_store ledger_ok_empty) as [Hone _ _].
    fold st in Hone.
    destruct (get_Some _ _ _ _ Hsub) as [Hsid Hin].
    destruct (get_Some _ _ _ _ Hstudent) as [Huid _].
    unfold grade_task_submission in H. rewrite Hsub, Hstudent in H.
    destruct (negb (is_teacher grader)); [done|].
    destruct (TaskSubmission.approved sub); [done|].
    injection H as <- _. unfold task_for_student. simpl.
    rewrite find_update_where by done.
    destruct (find _ (task_submissions st)) as [s|] eqn:Hfind.
    + assert (s = sub) as ->.
      { eapply unique_match; [apply (Hone (User.id student) (AssignedTask.id task))
                              |exact Hfind|exact Hin|].
        rewrite Huid, Htask. by rewrite !bool_decide_eq_true_2. }
      simpl. by rewrite bool_decide_eq_true_2.
    + exfalso. pose proof (find_none _ _ Hfind sub) as Hno.
      rewrite Huid, Htask, !bool_decide_eq_true_2 in Hno by done.
      simpl in Hno. apply list_elem_of_In in Hin. specialize (Hno Hin). done.
Qed.

(** The student hands in the newly assigned task 1 and sees it pending; in
    the scenario the teacher grades submission 2 for 50 points and the
    student sees task 2 approved with 50 points. *)
Lemma task_status_scenario :
  (forall task, AssignedTask.id task = 1 ->
     AssignedTaskForStudent.submission_status
       (task_for_student
          (step (Call student_token clock0 (SubmitTask 1 report_file))
                (run assigned_events empty_store)) demo_student task)
     = Some (TaskSubmissionStatus.mk false 0)) /\
  AssignedTaskForStudent.submission_status
    (task_for_student
       (step (Call teacher_token clock0 (GradeTaskSubmission 2 (TaskGradeIn.mk 50)))
             (run scenario_events empty_store)) scenario_student recycle_task)
  = Some (TaskSubmissionStatus.mk true 50).
Proof.
  destruct (task_status_follows assigned_events) as [Hsubmit _].
  destruct (task_status_follows scenario_events) as [_ Hgrade].
  split.
  - intros task Htask.
    apply (Hsubmit clock0 1 report_file demo_student _ "Submission successful" task);
      [vm_compute; reflexivity|exact Htask].
  - apply (Hgrade 2 (TaskGradeIn.mk 50) demo_teacher _ "Task graded"
             pending_submission scenario_student recycle_task);
      vm_compute; reflexivity.
Defined.

(** ** The teacher's pending lists *)

Lemma mapM_Ok {A B} (f : A -> result B) l rows :
  mapM f l = Ok rows -> Forall2 (fun x y => f x = Ok y) l rows.
Proof.
  revert rows. induction l as [|x l IH]; intros rows H; simpl in H.
  - injection H as <-. constructor.
  - destruct (f x) as [y|e] eqn:Hy; [|done]. simpl in H.
    destruct (mapM f l) as [ys|e]; [|done]. simpl in H.
    injection H as <-. constructor; [done|]. by apply IH.
Qed.

Lemma get_unique {A} (key : A -> Z) rows r :
  NoDup (map key rows) -> r ∈ rows -> get key (key r) rows = Some r.
Proof.
  induction rows as [|x rows IH]; intros Hnd Hr; [by apply elem_of_nil in Hr|].
  simpl in Hnd. apply NoDup_cons in Hnd as [Hx Hnd]. unfold get. simpl.
  apply elem_of_cons in Hr as [->|Hr].
  - by rewrite bool_decide_eq_true_2.
  - rewrite bool_decide_eq_false_2; [by apply IH|].
    intros Heq. apply Hx. rewrite Heq. apply list_elem_of_fmap. by exists r.
Qed.

(** X12.  The teacher's pending lists are the ungraded submissions: whenever
    [get_task_submissions] or [get_quiz_submissions] returns, it lists the
    ids of exactly the submissions not yet graded, in table order, and in
    every store the service can reach from a new database a graded
    submission is not listed. *)
Theorem pending_lists_are_ungraded (evs : list event) (user : User.t) :
  let st := run evs empty_store in
  (forall rows,
      get_task_submissions st user = Ok rows ->
      map TaskSubmissionRow.id rows
        = map TaskSubmission.id
            (filter (fun s => TaskSubmission.approved s = false) (task_submissions st))
      /\ forall sid, submission_graded Task st sid = Some true ->
                     sid ∉ map TaskSubmissionRow.id rows) /\
  (forall rows,
      get_quiz_submissions st user = Ok rows ->
      map QuizSubmissionRow.id rows
        = map QuizSubmission.id
            (filter (fun s => QuizSubmission.is_graded s = false) (quiz_submissions st))
      /\ forall sid, submission_graded Quiz st sid = Some true ->
                     sid ∉ map QuizSubmissionRow.id rows).
Proof.
  intros st. pose proof (primary_keys_hold evs) as Hkeys. fold st in Hkeys.
  destruct Hkeys. split.
  - intros rows H. unfold get_task_submissions in H.
    destruct (negb (is_teacher user)); [done|].
    apply mapM_Ok in H.
    assert (Hids : map TaskSubmissionRow.id rows
                   = map TaskSubmission.id
                       (filter (fun s => TaskSubmission.approved s = false)
                               (task_submissions st))).
    { induction H as [|s row l rows' Hrow _ IH]; [done|].
      simpl. rewrite IH. f_equal.
      destruct (get User.id _ _); [|done]. destruct (get AssignedTask.id _ _); [|done].
      by injection Hrow as <-. }
    split; [exact Hids|].
    intros sid Hgraded Hin. rewrite Hids in Hin.
    apply list_elem_of_fmap in Hin as (s & -> & Hs).
    apply list_elem_of_filter in Hs as [Hun Hs].
    simpl in Hgraded. rewrite (get_unique TaskSubmission.id) in Hgraded by done.
    simpl in Hgraded. congruence.
  - intros rows H. unfold get_quiz_submissions in H.
    destruct (negb (is_teacher user)); [done|].
    apply mapM_Ok in H.
    assert (Hids : map QuizSubmissionRow.id rows
                   = map QuizSubmission.id
                       (filter (fun s => QuizSubmission.is_graded s = false)
                               (quiz_submissions st))).
    { induction H as [|s row l rows' Hrow _ IH]; [done|].
      simpl. rewrite IH. f_equal.
      destruct (get User.id _ _); [|done]. destruct (get Quiz.id _ _); [|done].
      destruct (get Lesson.id _ _); [|done].
      by injection Hrow as <-. }
    split; [exact Hids|].
    intros sid Hgraded Hin. rewrite Hids in Hin.
    apply list_elem_of_fmap in Hin as (s & -> & Hs).
    apply list_elem_of_filter in Hs as [Hun Hs].
    simpl in Hgraded. rewrite (get_unique QuizSubmission.id) in Hgraded by done.
    simpl in Hgraded. congruence.
Qed.

(** In the scenario the teacher sees task submission 2 pending and not the
    graded submission 1; once the quiz is graded, no quiz is pending. *)
Lemma pending_lists_scenario :
  exists rows qrows,
    get_task_submissions (run scenario_events empty_store) demo_teacher = Ok rows /\
    map TaskSubmissionRow.id rows = [2] /\
    (1 ∉ map TaskSubmissionRow.id rows) /\
    get_quiz_submissions (run graded_events empty_store) demo_teacher = Ok qrows /\
    map QuizSubmissionRow.id qrows = [] /\
    1 ∉ map QuizSubmissionRow.id qrows.
Proof.
  destruct (pending_lists_are_ungraded scenario_events demo_teacher) as [Htask _].
  destruct (pending_lists_are_ungraded graded_events demo_teacher) as [_ Hquiz].
  destruct (get_task_submissions (run scenario_events empty_store) demo_teacher)
    as [rows|e] eqn:Hrows; [|exfalso; vm_compute in Hrows; discriminate Hrows].
  destruct (get_quiz_submissions (run graded_events empty_store) demo_teacher)
    as [qrows|e] eqn:Hqrows; [|exfalso; vm_compute in Hqrows; discriminate Hqrows].
  destruct (Htask rows eq_refl) as [Hids Hnot].
  destruct (Hquiz qrows eq_refl) as [Hqids Hqnot].
  exists rows, qrows. split; [reflexivity|]. split.
  - rewrite Hids. vm_compute. reflexivity.
  - split; [apply Hnot; vm_compute; reflexivity|]. split; [reflexivity|]. split.
    + rewrite Hqids. vm_compute. reflexivity.
    + apply Hqnot. vm_compute. reflexivity.
Defined.

Global Instance deadline_asc_trans : Transitive deadline_asc.
Proof. unfold deadline_asc. intros a b c. lia. Qed.

Global Instance deadline_asc_total : Total deadline_asc.
Proof. unfold deadline_asc. intros a b. lia. Qed.

(** X13.  The student's task list has one entry for every assigned task and
    no other, ordered by ascending deadline. *)
Theorem tasks_listed_by_deadline (st : Store) (user : User.t) :
  map AssignedTaskForStudent.id (list_tasks_for_student st user)
    ≡ₚ map AssignedTask.id (assigned_tasks st) /\
  StronglySorted Z.le
    (map AssignedTaskForStudent.deadline (list_tasks_for_student st user)).
Proof.
  unfold list_tasks_for_student. rewrite !map_map. simpl. split.
  - apply fmap_Permutation, merge_sort_Permutation.
  - apply (StronglySorted_fmap AssignedTask.deadline deadline_asc Z.le).
    + intros a b Hab. exact Hab.
    + apply StronglySorted_merge_sort; apply _.
Qed.

(** ** Deleting a game *)

(** X14.  Deleting a game takes its scores with it: an unknown game id is
    answered with [404 Game not found]; after a successful delete the game
    can no longer be found and no score refers to it, while every other game
    and every score of another game is still there. *)
Theorem delete_game_removes_scores (game_id : Z) (st : Store) (user : User.t) :
  is_teacher user = true ->
  (get Game.id game_id (games st) = None ->
   delete_game game_id st user = Raise (HTTPException 404 "Game not found")) /\
  (forall st' u,
      delete_game game_id st user = Ok (st', u) ->
      get Game.id game_id (games st') = None /\
      Forall (fun s => GameScore.game_id s <> game_id) (game_scores st') /\
      (forall g, g ∈ games st -> Game.id g <> game_id -> g ∈ games st') /\
      (forall s, s ∈ game_scores st -> GameScore.game_id s <> game_id ->
                 s ∈ game_scores st')).
Proof.
  intros Hteacher. unfold delete_game. rewrite Hteacher. simpl. split.
  - by intros ->.
  - intros st' u H.
    destruct (get Game.id game_id (games st)) as [game|] eqn:Hgame; [|done].
    apply get_Some in Hgame as [Hid _]. rewrite Hid in H.
    injection H as <- _. simpl. split; [|split; [|split]].
    + apply get_None. intros Hin.
      apply list_elem_of_fmap in Hin as (g & Hg & Hin).
      apply list_elem_of_filter in Hin as [Hne _]. congruence.
    + apply Forall_forall. intros s Hs. by apply list_elem_of_filter in Hs as [Hne _].
    + intros g Hg Hne. by apply list_elem_of_filter.
    + intros s Hs Hne. by apply list_elem_of_filter.
Qed.

(** The teacher deletes game 1, on which the student has two scores: the
    score on game 2 is all that is left; deleting game 9 is refused. *)
Lemma delete_game_scenario :
  delete_game 9 games_store demo_teacher
    = Raise (HTTPException 404 "Game not found") /\
  exists st',
    delete_game 1 games_store demo_teacher = Ok (st', ()) /\
    get Game.id 1 (games st') = None /\
    map GameScore.game_id (game_scores st') = [2].
Proof.
  destruct (delete_game_removes_scores 9 games_store demo_teacher eq_refl)
    as [Hmissing _].
  destruct (delete_game_removes_scores 1 games_store demo_teacher eq_refl)
    as [_ Hdelete].
  split; [apply Hmissing; vm_compute; reflexivity|].
  destruct (delete_game 1 games_store demo_teacher) as [[st' []]|e] eqn:Hd;
    [|exfalso; vm_compute in Hd; discriminate Hd].
  destruct (Hdelete st' () eq_refl) as (Hgone & _).
  exists st'. split; [reflexivity|]. split; [exact Hgone|].
  vm_compute in Hd. injection Hd as <-. vm_compute. reflexivity.
Defined.

(** ** Submitted answers *)

Lemma append_answers_elem sid ans rows a :
  a ∈ append_answers sid ans rows -> Answer.submission_id a = sid \/ a ∈ rows.
Proof.
  unfold append_answers. revert rows.
  induction ans as [|x ans IH]; intros rows Ha; simpl in Ha; [by right|].
  apply IH in Ha as [Ha|Ha]; [by left|].
  apply elem_of_app in Ha as [Ha|Ha]; [by right|].
  apply list_elem_of_singleton in Ha as ->. by left.
Qed.

Lemma append_answers_filter sid ans rows :
  map (fun a => (Answer.question_id a, Answer.answer_text a))
      (filter (fun a => Answer.submission_id a = sid) (append_answers sid ans rows))
  = map (fun a => (Answer.question_id a, Answer.answer_text a))
        (filter (fun a => Answer.submission_id a = sid) rows)
    ++ map (fun a => (AnswerIn.question_id a, AnswerIn.answer_text a)) ans.
Proof.
  unfold append_answers. revert rows.
  induction ans as [|x ans IH]; intros rows; simpl.
  - by rewrite app_nil_r.
  - rewrite IH, filter_app, map_app, <-app_assoc. f_equal.
    rewrite filter_cons, decide_True by done. done.
Qed.

Lemma answers_ok_dispatch clk r st user st' :
  answers_ok st -> dispatch clk r st user = Ok st' -> answers_ok st'.
Proof.
  unfold answers_ok. intros Hok Hd.
  destruct r; simpl in Hd; handler_cases Hd; simpl; try done.
  - intros a Ha. rewrite map_app. apply elem_of_app.
    apply append_answers_elem in Ha as [Ha|Ha].
    + right. rewrite Ha. simpl. apply list_elem_of_here.
    + left. by apply Hok.
  - intros a Ha. rewrite keys_update_where by done. by apply Hok.
Qed.

Lemma answers_ok_run evs : answers_ok (run evs empty_store).
Proof.
  induction evs as [|ev evs IH] using rev_ind.
  - intros a Ha. by apply elem_of_nil in Ha.
  - rewrite run_snoc. destruct ev as [clk pw pw'|token clk r]; simpl.
    + unfold answers_ok, demo_data, demo_notice, demo_games, demo_users in *.
      destruct (run evs empty_store)
        as [us ps ls qs qns qss ans ts tss gs gss ns md]; simpl in *.
      destruct us, gs, ns; simpl; exact IH.
    + destruct (serve token clk r (run evs empty_store)) as [st'|e] eqn:Hserve;
        [|done].
      apply serve_Ok in Hserve as (user & _ & Hd).
      by eapply answers_ok_dispatch.
Qed.

Lemma filter_answers_fresh st :
  answers_ok st ->
  filter (fun a => Answer.submission_id a
                   = next_id (map QuizSubmission.id (quiz_submissions st)))
         (answers st) = [].
Proof.
  intros Hok. unfold answers_ok in Hok.
  induction (answers st) as [|a rows IH]; [done|].
  rewrite filter_cons, decide_False.
  - apply IH. intros x Hx. apply Hok. by apply list_elem_of_further.
  - intros Heq. specialize (Hok a (list_elem_of_here _ _)).
    rewrite Heq in Hok. apply next_id_above in Hok. lia.
Qed.

Lemma answer_out_texts st l rows :
  mapM (answer_out st) l = Ok rows ->
  map AnswerOut.answer_text rows = map Answer.answer_text l.
Proof.
  intros H. apply mapM_Ok in H.
  induction H as [|a row l rows' Hrow _ IH]; [done|].
  simpl. rewrite IH. f_equal. unfold answer_out in Hrow.
  destruct (get Question.id _ _); [|done]. by injection Hrow as <-.
Qed.

Lemma mapM_result_cons {A B} (f : A -> result B) x l :
  mapM f (x :: l) = y ← f x; k ← mapM f l; mret (y :: k).
Proof. reflexivity. Qed.

Lemma answer_out_raises st l :
  Exists (fun a => get Question.id (Answer.question_id a) (questions st) = None) l ->
  mapM (answer_out st) l = Raise AttributeError.
Proof.
  induction l as [|a l IH]; intros Hex; [by apply Exists_nil in Hex|].
  rewrite mapM_result_cons.
  destruct (answer_out st a) as [y|e] eqn:Hy.
  - apply Exists_cons in Hex as [Hex|Hex].
    + unfold answer_out in Hy. by rewrite Hex in Hy.
    + rewrite (IH Hex). reflexivity.
  - unfold answer_out in Hy.
    destruct (get Question.id _ _); [done|]. by injection Hy as <-.
Qed.

(** X15.  What a student submits is what the teacher is shown: in every
    store the service can reach from a new database, after a successful
    [submit_quiz] the details of the new submission, whenever they are
    returned, carry the submitted answer texts in order.  The question ids of
    the answers are not checked at submit time: if one of them is not a
    question of the store, the details call raises on the missing question. *)
Theorem submitted_answers_are_shown (evs : list event) (clk : Clock)
    (quiz_id : Z) (submission_in : QuizSubmissionIn.t) (user teacher : User.t)
    (st' : Store) (msg : string) :
  let st := run evs empty_store in
  let sid := next_id (map QuizSubmission.id (quiz_submissions st)) in
  submit_quiz clk quiz_id submission_in st user = Ok (st', msg) ->
  is_teacher teacher = true ->
  (forall d,
      get_quiz_submission_details sid st' teacher = Ok d ->
      QuizSubmissionDetails.id d = sid /\
      map AnswerOut.answer_text (QuizSubmissionDetails.answers d)
        = map AnswerIn.answer_text (QuizSubmissionIn.answers submission_in)) /\
  (Exists (fun a => get Question.id (AnswerIn.question_id a) (questions st) = None)
          (QuizSubmissionIn.answers submission_in) ->
   get_quiz_submission_details sid st' teacher = Raise AttributeError).
Proof.
  intros st sid H Hteacher.
  pose proof (answers_ok_run evs) as Hok. fold st in Hok.
  unfold submit_quiz in H.
  destruct (get Quiz.id quiz_id (quizzes st)) as [quiz|]; [|done].
  destruct (find _ (quiz_submissions st)) as [s|]; [done|].
  injection H as <- _.
  set (new := QuizSubmission.mk sid quiz_id (User.id user) (utcnow clk) None false).
  destruct (get_insert_fresh QuizSubmission.id (quiz_submissions st) new eq_refl)
    as [Hnew _].
  change (QuizSubmission.id new) with sid in Hnew.
  assert (Hpairs :
    map (fun a => (Answer.question_id a, Answer.answer_text a))
        (filter (fun a => Answer.submission_id a = sid)
           (append_answers sid (QuizSubmissionIn.answers submission_in) (answers st)))
    = map (fun a => (AnswerIn.question_id a, AnswerIn.answer_text a))
          (QuizSubmissionIn.answers submission_in)).
  { rewrite append_answers_filter. unfold sid. by rewrite filter_answers_fresh. }
  unfold get_quiz_submission_details, answers_of_submission.
  rewrite Hteacher. simpl. fold sid. fold new. rewrite Hnew. simpl. split.
  - intros d Hd.
    destruct (mapM _ _) as [answers_out|e] eqn:Hout; [|done]. simpl in Hd.
    apply answer_out_texts in Hout.
    destruct (get User.id _ _); [|done]. destruct (get Quiz.id _ _); [|done].
    destruct (get Lesson.id _ _); [|done]. injection Hd as <-. simpl.
    split; [done|]. rewrite Hout.
    apply (f_equal (map snd)) in Hpairs. rewrite !map_map in Hpairs. exact Hpairs.
  - intros Hex. rewrite answer_out_raises; [done|]. simpl.
    assert (Hex' :
      Exists (fun p : Z * string => get Question.id p.1 (questions st) = None)
        (map (fun a => (AnswerIn.question_id a, AnswerIn.answer_text a))
             (QuizSubmissionIn.answers submission_in))).
    { apply Exists_fmap. exact Hex. }
    rewrite <-Hpairs in Hex'. apply Exists_fmap in Hex'. exact Hex'.
Qed.

(** The student answers the two questions of the quiz and the teacher reads
    the two answers; answers that name question 99, which does not exist, are
    accepted at submit time and make the details call raise. *)
Lemma submitted_answers_scenario :
  (exists d,
      get_quiz_submission_details 1
        (step (Call student_token clock0 (SubmitQuiz 1 demo_answers))
              (run quiz_ready_events empty_store)) demo_teacher = Ok d /\
      map AnswerOut.answer_text (QuizSubmissionDetails.answers d) = ["a"; "b"]) /\
  get_quiz_submission_details 1
    (step (Call student_token clock0 (SubmitQuiz 1 stray_answers))
          (run quiz_ready_events empty_store)) demo_teacher = Raise AttributeError.
Proof.
  destruct (submitted_answers_are_shown quiz_ready_events clock0 1 demo_answers
              demo_student demo_teacher
              (step (Call student_token clock0 (SubmitQuiz 1 demo_answers))
                    (run quiz_ready_events empty_store))
              "Quiz submitted for review") as [Hshown _];
    [vm_compute; reflexivity|reflexivity|].
  destruct (submitted_answers_are_shown quiz_ready_events clock0 1 stray_answers
              demo_student demo_teacher
              (step (Call student_token clock0 (SubmitQuiz 1 stray_answers))
                    (run quiz_ready_events empty_store))
              "Quiz submitted for review") as [_ Hraise];
    [vm_compute; reflexivity|reflexivity|].
  split.
  - destruct (get_quiz_submission_details 1
                (step (Call student_token clock0 (SubmitQuiz 1 demo_answers))
                      (run quiz_ready_events empty_store)) demo_teacher)
      as [d|e] eqn:Hd.
    + exists d. split; [reflexivity|].
      assert (Hsid : next_id (map QuizSubmission.id
                        (quiz_submissions (run quiz_ready_events empty_store))) = 1)
        by (vm_compute; reflexivity).
      rewrite Hsid in Hshown. destruct (Hshown d Hd) as [_ Htexts]. exact Htexts.
    + exfalso. vm_compute in Hd. discriminate Hd.
  - assert (Hsid : next_id (map QuizSubmission.id
                      (quiz_submissions (run quiz_ready_events empty_store))) = 1)
      by (vm_compute; reflexivity).
    rewrite Hsid in Hraise. apply Hraise.
    apply Exists_cons_tl, Exists_cons_hd. vm_compute. reflexivity.
Defined.
